(** * AI Inbox Agent: the two request handlers of [app/main.py]

    A shallow embedding of the module's start-up code and of its two
    routes, [analyze_message] and [rewrite_reply], followed by the
    properties of the request/response contract.

    Conventions of the embedding.
    - A Python [str] is a [string] (its UTF-8 bytes); the handlers only
      compare keys with ASCII constants and pass text through.
    - A value returned by [json.loads] is a [pyval]; a JSON object is a
      [dict], modelled as a finite map from keys to values.
    - A Python exception is a value of [exn]; code that may raise returns
      a [result].  Only subclasses of [Exception] occur, the ones that
      [except Exception] catches.
    - What the handlers do to the outside world (the call to the
      completion service, [print]) is recorded in a trace of [event]s.
    - The libraries the module calls are parameters of the development:
      the JSON decoder and encoder and the completion service.  The
      response models are pydantic (version 2) models: a [str] field
      accepts a [str] and nothing else that [json.loads] can produce. *)

From Stdlib Require Import ZArith Ascii String.
From stdpp Require Import gmap strings list fin_maps.

Set Warnings "-register-all".
Open Scope string_scope.

(** ** Python values and exceptions *)

Inductive pyval : Type :=
| PyNone
| PyBool (b : bool)
| PyInt (z : Z)
| PyFloat (literal : string)   (* a float, kept as the literal it was read from *)
| PyStr (s : string)
| PyList (l : list pyval)
| PyDict (d : gmap string pyval).

Inductive exn : Type :=
| RuntimeError (msg : string)
| APIError (msg : string)      (* anything [client.chat.completions.create] raises *)
| IndexError
| TypeError
| JSONDecodeError
| AttributeError
| ValidationError.

Inductive result (A : Type) : Type :=
| Return (a : A)
| Raise (e : exn).
Arguments Return {A} a.
Arguments Raise {A} e.

#[global] Instance result_ret : MRet result := @Return.
#[global] Instance result_bind : MBind result := λ A B f m,
  match m with
  | Return a => f a
  | Raise e => Raise e
  end.

(** [isinstance(v, list)] *)
Definition isinstance_list (v : pyval) : bool :=
  match v with
  | PyList _ => true
  | _ => false
  end.

(** [data.get(key, dflt)]: only a [dict] has the method. *)
Definition py_get (data : pyval) (key : string) (dflt : pyval) : result pyval :=
  match data with
  | PyDict d => Return (default dflt (d !! key))
  | _ => Raise AttributeError
  end.

(** [l[i]] on a Python list, for [i >= 0]. *)
Definition py_index {A : Type} (l : list A) (i : nat) : result A :=
  match l !! i with
  | Some x => Return x
  | None => Raise IndexError
  end.

(** ** Pydantic models *)

Record MessageRequest : Type := { message : string }.

Record MessageAnalysisResponse : Type := {
  classification : string;
  summary : string;
  tasks : list string;
  suggested_reply : string
}.

Record RewriteRequest : Type := {
  original_message : string;
  base_reply : string;
  style : string
}.

Record RewriteResponse : Type := { rewritten_reply : string }.

Module Pydantic.

(** Validation of a [str] field. *)
Definition validate_str (v : pyval) : option string :=
  match v with
  | PyStr s => Some s
  | _ => None
  end.

(** Validation of a [List[str]] field: a list, each element a [str]. *)
Definition validate_list_str (v : pyval) : option (list string) :=
  match v with
  | PyList l => mapM validate_str l
  | _ => None
  end.

(** [Model(..)] validates every field; any failure raises. *)
Definition model_init {A : Type} (fields : option A) : result A :=
  match fields with
  | Some a => Return a
  | None => Raise ValidationError
  end.

End Pydantic.

(** [MessageAnalysisResponse(classification=.., summary=.., tasks=.., suggested_reply=..)] *)
Definition new_MessageAnalysisResponse (c s t r : pyval) : result MessageAnalysisResponse :=
  Pydantic.model_init
    (c' ← Pydantic.validate_str c;
     s' ← Pydantic.validate_str s;
     t' ← Pydantic.validate_list_str t;
     r' ← Pydantic.validate_str r;
     Some {| classification := c'; summary := s'; tasks := t'; suggested_reply := r' |}).

(** [RewriteResponse(rewritten_reply=..)] *)
Definition new_RewriteResponse (r : pyval) : result RewriteResponse :=
  Pydantic.model_init
    (r' ← Pydantic.validate_str r;
     Some {| rewritten_reply := r' |}).

(** ** The completion service *)

Module OpenAI.

(** The handle [OpenAI(api_key=..)]. *)
Record Client : Type := { api_key : string }.

(** The keyword arguments of [chat.completions.create]; each message
    is the dict [{"role": .., "content": ..}] of the source. *)
Record Request : Type := {
  model : string;
  response_format : gmap string string;
  messages : list (gmap string string)
}.

(** [completion.choices[i].message.content] is an [Optional[str]]. *)
Record ChatCompletionMessage : Type := { content : option string }.
Record Choice : Type := { message : ChatCompletionMessage }.
Record ChatCompletion : Type := { choices : list Choice }.

End OpenAI.

(** ** Effects and HTTP outcomes *)

Inductive event : Type :=
| ClientConstructed (api_key : string)
| CompletionRequested (client : OpenAI.Client) (req : OpenAI.Request)
| Printed (prefix : string) (cause : exn).

Inductive http_response (A : Type) : Type :=
| Success (body : A)                               (* HTTP 200 *)
| HTTPException (status_code : Z) (detail : string).
Arguments Success {A} body.
Arguments HTTPException {A} status_code detail.

Record outcome (A : Type) : Type := {
  trace : list event;
  response : http_response A
}.
Arguments trace {A} o.
Arguments response {A} o.

(** A computation with effects: the events it caused, in order, and how
    it ended.  An event is recorded by the operation that causes it, so
    the trace of a handler is the trace of the operations it runs. *)
Record io (A : Type) : Type := IO {
  effects : list event;
  ending : result A
}.
Arguments IO {A} effects ending.
Arguments effects {A} i.
Arguments ending {A} i.

#[global] Instance io_ret : MRet io := λ A a, IO [] (Return a).
#[global] Instance io_bind : MBind io := λ A B f m,
  match ending m with
  | Return a => IO (effects m ++ effects (f a))%list (ending (f a))
  | Raise e => IO (effects m) (Raise e)
  end.

(** A step without effects. *)
Definition pure {A : Type} (r : result A) : io A := IO [] r.

(** [print(prefix, repr(e))] *)
Definition print (prefix : string) (e : exn) : io unit :=
  IO [Printed prefix e] (Return tt).

(** ** System prompts *)

Definition dq : string := String "034"%char EmptyString.
Definition nl : string := String "010"%char EmptyString.
Definition unlines (ls : list string) : string := String.concat nl ls.

Definition ANALYSIS_SYSTEM_PROMPT : string :=
  unlines
    [ ""
    ; "You are an AI inbox copilot for a busy professional."
    ; ""
    ; "Your job is to read ONE incoming message (email, Slack, etc.) and return:"
    ; "- classification: exactly ONE of these:"
    ; "    - " ++ dq ++ "Urgent" ++ dq
    ; "    - " ++ dq ++ "Request" ++ dq
    ; "    - " ++ dq ++ "Follow-Up" ++ dq
    ; "    - " ++ dq ++ "Reminder" ++ dq
    ; "    - " ++ dq ++ "Informational" ++ dq
    ; "- summary: 1–2 sentence summary"
    ; "- tasks: a list of concrete action items (can be empty)"
    ; "- suggested_reply: a reply the user could send"
    ; ""
    ; "CLASSIFICATION RULES (VERY IMPORTANT):"
    ; ""
    ; "1. Urgent"
    ; "   - Only if the message is truly time-critical (needs action within a few hours),"
    ; "     OR explicitly says ASAP, " ++ dq ++ "right away" ++ dq ++ ", " ++ dq ++ "immediately" ++ dq ++ ", " ++ dq ++ "today if possible" ++ dq ++ ","
    ; "     OR it clearly blocks important work."
    ; "   - Deadlines like " ++ dq ++ "by tomorrow" ++ dq ++ ", " ++ dq ++ "before tomorrow's stand-up" ++ dq ++ ", " ++ dq ++ "later this week" ++ dq
    ; "     are NOT urgent by default."
    ; ""
    ; "2. Request"
    ; "   - The sender is asking the user to do something:"
    ; "     review, update, fix, send, approve, create, schedule, complete, etc."
    ; "   - Includes tasks with deadlines (today, tomorrow, this week) that are not"
    ; "     explicitly critical or blocking."
    ; "   - Example: " ++ dq ++ "Can you review the new API docs before tomorrow’s stand-up?" ++ dq
    ; "     => classification should be " ++ dq ++ "Request" ++ dq ++ ", not " ++ dq ++ "Urgent" ++ dq ++ "."
    ; ""
    ; "3. Follow-Up"
    ; "   - The sender is checking on a previous message or work."
    ; "   - Look for phrases like " ++ dq ++ "just checking in" ++ dq ++ ", " ++ dq ++ "any update" ++ dq ++ ", " ++ dq ++ "following up" ++ dq ++ ","
    ; "     " ++ dq ++ "wanted to circle back" ++ dq ++ "."
    ; ""
    ; "4. Reminder"
    ; "   - The sender is reminding the user about something upcoming or overdue."
    ; "   - Soft nudges, not true fire-drills."
    ; ""
    ; "5. Informational"
    ; "   - Primarily FYI or status updates."
    ; "   - No clear action required from the user."
    ; ""
    ; "Always choose EXACTLY ONE category. Do not invent others."
    ; ""
    ; "Return a JSON object with this exact structure:"
    ; "{"
    ; "  " ++ dq ++ "classification" ++ dq ++ ": " ++ dq ++ "Urgent | Request | Follow-Up | Reminder | Informational" ++ dq ++ ","
    ; "  " ++ dq ++ "summary" ++ dq ++ ": " ++ dq ++ "short summary here" ++ dq ++ ","
    ; "  " ++ dq ++ "tasks" ++ dq ++ ": [" ++ dq ++ "task 1" ++ dq ++ ", " ++ dq ++ "task 2" ++ dq ++ "],"
    ; "  " ++ dq ++ "suggested_reply" ++ dq ++ ": " ++ dq ++ "reply text here" ++ dq
    ; "}"
    ; ""
    ].

Definition REWRITE_SYSTEM_PROMPT : string :=
  unlines
    [ ""
    ; "You rewrite email/Slack replies into different styles."
    ; ""
    ; "You will receive:"
    ; "- original_message: the message the user received"
    ; "- base_reply: a reasonable reply the user could send"
    ; "- style: one of " ++ dq ++ "polished" ++ dq ++ ", " ++ dq ++ "short" ++ dq ++ ", " ++ dq ++ "friendly" ++ dq
    ; ""
    ; "Your job:"
    ; "- Preserve the meaning of the base_reply."
    ; "- Adjust tone and length based on style:"
    ; ""
    ; "  - polished:"
    ; "      professional, clear, confident, complete sentences."
    ; "      Appropriate for executives or clients."
    ; ""
    ; "  - short:"
    ; "      very concise, direct, minimal words."
    ; "      No fluff, but still polite."
    ; ""
    ; "  - friendly:"
    ; "      warm, approachable, collaborative tone."
    ; "      Still professional, no slang."
    ; ""
    ; "Return ONLY a JSON object:"
    ; "{"
    ; "  " ++ dq ++ "rewritten_reply" ++ dq ++ ": " ++ dq ++ "..." ++ dq
    ; "}"
    ; ""
    ].

(** ** Module initialisation

    [environ] is the process environment after [load_dotenv()].
    [os.getenv] gives [None] for a variable that is not set; [not v]
    holds for [None] and for the empty string. *)

Record App : Type := { client : OpenAI.Client }.

Definition module_init (environ : gmap string string) : list event * result App :=
  let OPENAI_API_KEY := environ !! "OPENAI_API_KEY" in
  match OPENAI_API_KEY with
  | None => ([], Raise (RuntimeError "OPENAI_API_KEY is not set in .env"))
  | Some key =>
      if decide (key = "")
      then ([], Raise (RuntimeError "OPENAI_API_KEY is not set in .env"))
      else ([ClientConstructed key], Return {| client := {| OpenAI.api_key := key |} |})
  end.

Inductive http_request : Type :=
| PostAnalyzeMessage (request : MessageRequest)
| PostRewriteReply (request : RewriteRequest).

Inductive http_reply : Type :=
| AnalyzeMessageReply (o : outcome MessageAnalysisResponse)
| RewriteReplyReply (o : outcome RewriteResponse).

Definition reply_trace (r : http_reply) : list event :=
  match r with
  | AnalyzeMessageReply o => trace o
  | RewriteReplyReply o => trace o
  end.

Definition is_ClientConstructed (ev : event) : bool :=
  match ev with
  | ClientConstructed _ => true
  | _ => false
  end.

(** ** Vocabulary of the properties *)

Definition is_CompletionRequested (ev : event) : bool :=
  match ev with
  | CompletionRequested _ _ => true
  | _ => false
  end.

Definition is_Printed (ev : event) : bool :=
  match ev with
  | Printed _ _ => true
  | _ => false
  end.

Definition is_error {A : Type} (r : http_response A) : bool :=
  match r with
  | Success _ => false
  | HTTPException _ _ => true
  end.

(** The reply is an error status. *)
Definition reply_failed (r : http_reply) : bool :=
  match r with
  | AnalyzeMessageReply o => is_error (response o)
  | RewriteReplyReply o => is_error (response o)
  end.

(** The client a completion request went through, if the event is one. *)
Definition event_client (ev : event) : option OpenAI.Client :=
  match ev with
  | CompletionRequested c _ => Some c
  | _ => None
  end.


(** The text of an upstream answer: [choices[0].message.content], when the
    call returned and the text is there. *)
Definition upstream_text (r : result OpenAI.ChatCompletion) : option string :=
  match r with
  | Return completion =>
      choice ← OpenAI.choices completion !! 0;
      OpenAI.content (OpenAI.message choice)
  | Raise _ => None
  end.

Definition is_str (v : pyval) : bool :=
  match v with
  | PyStr _ => true
  | _ => false
  end.

(** A field that is missing, or present as text. *)
Definition text_or_absent (o : option pyval) : bool :=
  match o with
  | None => true
  | Some v => is_str v
  end.

(** A [tasks] field that is missing, not a list, or a list of text. *)
Definition tasks_acceptable (o : option pyval) : bool :=
  match o with
  | Some (PyList l) => forallb is_str l
  | _ => true
  end.

Definition analysis_acceptable (d : gmap string pyval) : bool :=
  text_or_absent (d !! "classification")
  && text_or_absent (d !! "summary")
  && tasks_acceptable (d !! "tasks")
  && text_or_absent (d !! "suggested_reply").

(** The value of a text field: the upstream text, else the default. *)
Definition text_of (dflt : string) (o : option pyval) : string :=
  match o with
  | Some (PyStr s) => s
  | _ => dflt
  end.

Definition texts (l : list pyval) : list string :=
  flat_map (λ v, match v with PyStr s => [s] | _ => [] end) l.

(** The value of [tasks]: the upstream list, else the empty sequence. *)
Definition tasks_of (o : option pyval) : list string :=
  match o with
  | Some (PyList l) => texts l
  | _ => []
  end.

(** The documented result of normalising a JSON object. *)
Definition analysis_defaulted (d : gmap string pyval) : MessageAnalysisResponse :=
  {| classification := text_of "Informational" (d !! "classification");
     summary := text_of "" (d !! "summary");
     tasks := tasks_of (d !! "tasks");
     suggested_reply := text_of "" (d !! "suggested_reply") |}.

(** The five labels of the prompt. *)
Definition labels : list string :=
  ["Urgent"; "Request"; "Follow-Up"; "Reminder"; "Informational"].

(** The three styles of the prompt. *)
Definition styles : list string := ["polished"; "short"; "friendly"].

(** ** Test doubles and sample data *)

Module Doubles.

(** A completion service that answers every call with one choice. *)
Definition answering (content : option string)
  : OpenAI.Client → OpenAI.Request → result OpenAI.ChatCompletion :=
  λ _ _, Return {| OpenAI.choices := [ {| OpenAI.message := {| OpenAI.content := content |} |} ] |}.

(** A completion service whose every call raises. *)
Definition failing (e : exn)
  : OpenAI.Client → OpenAI.Request → result OpenAI.ChatCompletion :=
  λ _ _, Raise e.

(** A decoder that knows the texts of a table and rejects all others. *)
Definition decode_table (table : list (string * pyval)) (text : string) : option pyval :=
  (list_to_map table : gmap string pyval) !! text.

(** A stand-in for the encoder: a flat dict of text, keys in the map's
    own order, nothing escaped. *)
Definition dumps_flat (v : pyval) : string :=
  match v with
  | PyDict d =>
      "{" ++ String.concat ", "
               ((λ kv, dq ++ kv.1 ++ dq ++ ": " ++
                       match kv.2 with
                       | PyStr s => dq ++ s ++ dq
                       | _ => "null"
                       end) <$> map_to_list d) ++ "}"
  | _ => "null"
  end.

Definition key (k : string) : string := dq ++ k ++ dq ++ ": ".
Definition str (s : string) : string := dq ++ s ++ dq.

(** [{"rewritten_reply": "Got it, will do."}] *)
Definition text_rewritten : string := "{" ++ key "rewritten_reply" ++ str "Got it, will do." ++ "}".
(** [{"classification": "Request", "summary": "Review the API docs.",
     "tasks": ["Review the API docs"], "suggested_reply": "Will do."}] *)
Definition text_complete : string :=
  "{" ++ key "classification" ++ str "Request" ++ ", " ++ key "summary" ++ str "Review the API docs."
      ++ ", " ++ key "tasks" ++ "[" ++ str "Review the API docs" ++ "], "
      ++ key "suggested_reply" ++ str "Will do." ++ "}".
(** [{}] *)
Definition text_empty : string := "{}".
(** [{"summary": null}] *)
Definition text_summary_null : string := "{" ++ key "summary" ++ "null}".
(** [{"classification": null}] *)
Definition text_classification_null : string := "{" ++ key "classification" ++ "null}".
(** [{"classification": "Spam"}] *)
Definition text_spam : string := "{" ++ key "classification" ++ str "Spam" ++ "}".
(** [{"classification": "Spam", "summary": null}] *)
Definition text_spam_summary_null : string :=
  "{" ++ key "classification" ++ str "Spam" ++ ", " ++ key "summary" ++ "null}".
(** [{"tasks": "call Bob"}] *)
Definition text_tasks_string : string := "{" ++ key "tasks" ++ str "call Bob" ++ "}".
(** [{"tasks": 5, "summary": null}] *)
Definition text_tasks_number_summary_null : string :=
  "{" ++ key "tasks" ++ "5, " ++ key "summary" ++ "null}".
(** [{"tasks": ["call Bob", 5]}] *)
Definition text_tasks_mixed : string :=
  "{" ++ key "tasks" ++ "[" ++ str "call Bob" ++ ", 5]}".
(** [{"rewritten_reply": 5}] *)
Definition text_rewritten_number : string := "{" ++ key "rewritten_reply" ++ "5}".
(** Not JSON at all. *)
Definition text_not_json : string := "not json".

Definition samples : list (string * pyval) :=
  [ (text_rewritten, PyDict {[ "rewritten_reply" := PyStr "Got it, will do." ]});
    (text_complete,
     PyDict (<[ "classification" := PyStr "Request" ]>
               (<[ "summary" := PyStr "Review the API docs." ]>
                  (<[ "tasks" := PyList [PyStr "Review the API docs"] ]>
                     {[ "suggested_reply" := PyStr "Will do." ]}))));
    (text_empty, PyDict ∅);
    (text_summary_null, PyDict {[ "summary" := PyNone ]});
    (text_classification_null, PyDict {[ "classification" := PyNone ]});
    (text_spam, PyDict {[ "classification" := PyStr "Spam" ]});
    (text_spam_summary_null,
     PyDict (<[ "classification" := PyStr "Spam" ]> {[ "summary" := PyNone ]}));
    (text_tasks_string, PyDict {[ "tasks" := PyStr "call Bob" ]});
    (text_tasks_number_summary_null,
     PyDict (<[ "tasks" := PyInt 5 ]> {[ "summary" := PyNone ]}));
    (text_tasks_mixed, PyDict {[ "tasks" := PyList [PyStr "call Bob"; PyInt 5] ]});
    (text_rewritten_number, PyDict {[ "rewritten_reply" := PyInt 5 ]}) ].

Definition decode : string → option pyval := decode_table samples.

Definition the_client : OpenAI.Client := {| OpenAI.api_key := "sk-test" |}.

Definition the_message : MessageRequest :=
  {| message := "Can you review the API docs before tomorrow's stand-up?" |}.

Definition the_rewrite (st : string) : RewriteRequest :=
  {| original_message := "Can you review the API docs before tomorrow's stand-up?";
     base_reply := "Sure, I will review them.";
     style := st |}.

End Doubles.

(** Further doubles and sample answers. *)
Module Samples.

(** A completion service that answers every call with these choices. *)
Definition answering_all (contents : list (option string))
  : OpenAI.Client → OpenAI.Request → result OpenAI.ChatCompletion :=
  λ _ _, Return {| OpenAI.choices :=
                     (λ c, {| OpenAI.message := {| OpenAI.content := c |} |}) <$> contents |}.

(** [{"classification": "Spam", "priority": 1}] *)
Definition text_spam_priority : string :=
  "{" ++ Doubles.key "classification" ++ Doubles.str "Spam" ++ ", "
      ++ Doubles.key "priority" ++ "1}".
(** [{"classification": "Request"}] *)
Definition text_request : string :=
  "{" ++ Doubles.key "classification" ++ Doubles.str "Request" ++ "}".
(** [{"classification": "Informational"}] *)
Definition text_informational : string :=
  "{" ++ Doubles.key "classification" ++ Doubles.str "Informational" ++ "}".
(** [{"rewritten_reply": "Got it, will do.", "tone": "short"}] *)
Definition text_rewritten_tone : string :=
  "{" ++ Doubles.key "rewritten_reply" ++ Doubles.str "Got it, will do." ++ ", "
      ++ Doubles.key "tone" ++ Doubles.str "short" ++ "}".
(** [{"rewritten_reply": "Sure, I will review them."}] *)
Definition text_rewritten_base : string :=
  "{" ++ Doubles.key "rewritten_reply" ++ Doubles.str "Sure, I will review them." ++ "}".

Definition samples : list (string * pyval) :=
  (Doubles.samples ++
   [ (text_spam_priority,
      PyDict (<[ "priority" := PyInt 1 ]> {[ "classification" := PyStr "Spam" ]}));
     (text_request, PyDict {[ "classification" := PyStr "Request" ]});
     (text_informational, PyDict {[ "classification" := PyStr "Informational" ]});
     (text_rewritten_tone,
      PyDict (<[ "tone" := PyStr "short" ]> {[ "rewritten_reply" := PyStr "Got it, will do." ]}));
     (text_rewritten_base, PyDict {[ "rewritten_reply" := PyStr "Sure, I will review them." ]}) ])%list.

Definition decode : string → option pyval := Doubles.decode_table samples.

Definition other_client : OpenAI.Client := {| OpenAI.api_key := "sk-other" |}.

(** A completion service that answers [Doubles.the_client] with one text
    and every other client with another. *)
Definition answering_each (first second : option string)
  : OpenAI.Client → OpenAI.Request → result OpenAI.ChatCompletion :=
  λ c r,
    if decide (OpenAI.api_key c = OpenAI.api_key Doubles.the_client)
    then Doubles.answering first c r
    else Doubles.answering second c r.

Definition other_message : MessageRequest := {| message := "" |}.

End Samples.

(** ** The routes *)

Section Routes.

(** [JSONDecoder.decode]: [None] when it raises [JSONDecodeError]. *)
Variable decode : string → option pyval.
(** [json.dumps] *)
Variable json_dumps : pyval → string.
(** [client.chat.completions.create(..)], the external completion service. *)
Variable create : OpenAI.Client → OpenAI.Request → result OpenAI.ChatCompletion.

(** Calling the service: the call is the event, the service's answer is
    how the call ends. *)
Definition chat_completions_create (client : OpenAI.Client) (req : OpenAI.Request)
  : io OpenAI.ChatCompletion :=
  IO [CompletionRequested client req] (create client req).

(** [json.loads(s)]: a [TypeError] unless [s] is text. *)
Definition json_loads (s : option string) : result pyval :=
  match s with
  | None => Raise TypeError
  | Some text =>
      match decode text with
      | Some v => Return v
      | None => Raise JSONDecodeError
      end
  end.

(** The arguments of the call in [analyze_message]. *)
Definition analyze_message_call (request : MessageRequest) : OpenAI.Request :=
  {| OpenAI.model := "gpt-4.1-mini";
     OpenAI.response_format := {[ "type" := "json_object" ]};
     OpenAI.messages :=
       [ <[ "role" := "system" ]> {[ "content" := ANALYSIS_SYSTEM_PROMPT ]};
         <[ "role" := "user" ]> {[ "content" := message request ]} ] |}.

(** Lines 167-180: the fields read from the decoded document. *)
Definition analyze_message_fields (data : pyval) : result MessageAnalysisResponse :=
  classification ← py_get data "classification" (PyStr "Informational");
  summary ← py_get data "summary" (PyStr "");
  tasks ← py_get data "tasks" (PyList []);
  suggested_reply ← py_get data "suggested_reply" (PyStr "");
  let tasks := if isinstance_list tasks then tasks else PyList [] in
  new_MessageAnalysisResponse classification summary tasks suggested_reply.

(** Lines 164-180: from the completion to the response model. *)
Definition analyze_message_normalize (completion : OpenAI.ChatCompletion)
  : result MessageAnalysisResponse :=
  choice ← py_index (OpenAI.choices completion) 0;
  let content := OpenAI.content (OpenAI.message choice) in
  data ← json_loads content;
  analyze_message_fields data.

(** The body of the [try], with its effects. *)
Definition analyze_message_body (client : OpenAI.Client) (request : MessageRequest)
  : io MessageAnalysisResponse :=
  completion ← chat_completions_create client (analyze_message_call request);
  pure (analyze_message_normalize completion).

(** How the body of the [try] ends. *)
Definition analyze_message_try (client : OpenAI.Client) (request : MessageRequest)
  : result MessageAnalysisResponse :=
  ending (analyze_message_body client request).

(** The [except] clause: print the cause, raise the [HTTPException]. *)
Definition analyze_message (client : OpenAI.Client) (request : MessageRequest)
  : outcome MessageAnalysisResponse :=
  let body := analyze_message_body client request in
  match ending body with
  | Return r => {| trace := effects body; response := Success r |}
  | Raise e =>
      {| trace := (effects body ++ effects (print "Error in /analyze_message:" e))%list;
         response := HTTPException 500 "Error analyzing message" |}
  end.

(** The [payload] dict of [rewrite_reply]. *)
Definition rewrite_reply_payload (request : RewriteRequest) : gmap string pyval :=
  <[ "original_message" := PyStr (original_message request) ]>
    (<[ "base_reply" := PyStr (base_reply request) ]>
       {[ "style" := PyStr (style request) ]}).

Definition rewrite_reply_call (request : RewriteRequest) : OpenAI.Request :=
  {| OpenAI.model := "gpt-4.1-mini";
     OpenAI.response_format := {[ "type" := "json_object" ]};
     OpenAI.messages :=
       [ <[ "role" := "system" ]> {[ "content" := REWRITE_SYSTEM_PROMPT ]};
         <[ "role" := "user" ]>
           {[ "content" := json_dumps (PyDict (rewrite_reply_payload request)) ]} ] |}.

(** Lines 210-212. *)
Definition rewrite_reply_fields (base_reply : string) (data : pyval)
  : result RewriteResponse :=
  rewritten ← py_get data "rewritten_reply" (PyStr base_reply);
  new_RewriteResponse rewritten.

(** Lines 208-212. *)
Definition rewrite_reply_normalize (base_reply : string) (completion : OpenAI.ChatCompletion)
  : result RewriteResponse :=
  choice ← py_index (OpenAI.choices completion) 0;
  let content := OpenAI.content (OpenAI.message choice) in
  data ← json_loads content;
  rewrite_reply_fields base_reply data.

(** The body of the [try], with its effects. *)
Definition rewrite_reply_body (client : OpenAI.Client) (request : RewriteRequest)
  : io RewriteResponse :=
  completion ← chat_completions_create client (rewrite_reply_call request);
  pure (rewrite_reply_normalize (base_reply request) completion).

(** How the body of the [try] ends. *)
Definition rewrite_reply_try (client : OpenAI.Client) (request : RewriteRequest)
  : result RewriteResponse :=
  ending (rewrite_reply_body client request).

(** The [except] clause: print the cause, raise the [HTTPException]. *)
Definition rewrite_reply (client : OpenAI.Client) (request : RewriteRequest)
  : outcome RewriteResponse :=
  let body := rewrite_reply_body client request in
  match ending body with
  | Return r => {| trace := effects body; response := Success r |}
  | Raise e =>
      {| trace := (effects body ++ effects (print "Error in /rewrite_reply:" e))%list;
         response := HTTPException 500 "Error rewriting reply" |}
  end.

(** ** The process: import the module, then serve requests *)

Definition dispatch (app : App) (r : http_request) : http_reply :=
  match r with
  | PostAnalyzeMessage request => AnalyzeMessageReply (analyze_message (client app) request)
  | PostRewriteReply request => RewriteReplyReply (rewrite_reply (client app) request)
  end.

Definition run (environ : gmap string string) (requests : list http_request)
  : list event * result (list http_reply) :=
  match module_init environ with
  | (evs, Raise e) => (evs, Raise e)
  | (evs, Return app) =>
      let replies := dispatch app <$> requests in
      ((evs ++ concat (reply_trace <$> replies))%list, Return replies)
  end.

(** The service answered the call of [analyze_message] with text that
    decodes to [v]. *)
Definition analysis_answered (client : OpenAI.Client) (request : MessageRequest)
    (v : pyval) : Prop :=
  ∃ text,
    upstream_text (create client (analyze_message_call request)) = Some text
    ∧ decode text = Some v.

(** The service answered the call of [rewrite_reply] with text that
    decodes to [v]. *)
Definition rewrite_answered (client : OpenAI.Client) (request : RewriteRequest)
    (v : pyval) : Prop :=
  ∃ text,
    upstream_text (create client (rewrite_reply_call request)) = Some text
    ∧ decode text = Some v.

(** The keys [analyze_message] reads. *)
Definition analysis_keys : list string :=
  ["classification"; "summary"; "tasks"; "suggested_reply"].

(** The keys [analyze_message] reads, each with the default of its [get]. *)
Definition analysis_defaults : list (string * pyval) :=
  [ ("classification", PyStr "Informational");
    ("summary", PyStr "");
    ("tasks", PyList []);
    ("suggested_reply", PyStr "") ].

(** ** Properties *)

(** *** The handlers, effects set apart *)

Lemma analyze_message_try_eq client request :
  analyze_message_try client request
  = (completion ← create client (analyze_message_call request);
     analyze_message_normalize completion).
Proof.
  unfold analyze_message_try, analyze_message_body, chat_completions_create, pure.
  unfold mbind at 1, io_bind. simpl.
  by destruct (create client (analyze_message_call request)).
Qed.

Lemma analyze_message_eq client request :
  analyze_message client request
  = match analyze_message_try client request with
    | Return body =>
        {| trace := [CompletionRequested client (analyze_message_call request)];
           response := Success body |}
    | Raise e =>
        {| trace := [CompletionRequested client (analyze_message_call request);
                     Printed "Error in /analyze_message:" e];
           response := HTTPException 500 "Error analyzing message" |}
    end.
Proof.
  unfold analyze_message, analyze_message_try, analyze_message_body,
    chat_completions_create, pure.
  unfold mbind, io_bind. simpl.
  destruct (create client (analyze_message_call request)) as [completion|e]; simpl;
    [|done].
  by destruct (analyze_message_normalize completion).
Qed.

Lemma rewrite_reply_try_eq client request :
  rewrite_reply_try client request
  = (completion ← create client (rewrite_reply_call request);
     rewrite_reply_normalize (base_reply request) completion).
Proof.
  unfold rewrite_reply_try, rewrite_reply_body, chat_completions_create, pure.
  unfold mbind at 1, io_bind. simpl.
  by destruct (create client (rewrite_reply_call request)).
Qed.

Lemma rewrite_reply_eq client request :
  rewrite_reply client request
  = match rewrite_reply_try client request with
    | Return body =>
        {| trace := [CompletionRequested client (rewrite_reply_call request)];
           response := Success body |}
    | Raise e =>
        {| trace := [CompletionRequested client (rewrite_reply_call request);
                     Printed "Error in /rewrite_reply:" e];
           response := HTTPException 500 "Error rewriting reply" |}
    end.
Proof.
  unfold rewrite_reply, rewrite_reply_try, rewrite_reply_body,
    chat_completions_create, pure.
  unfold mbind, io_bind. simpl.
  destruct (create client (rewrite_reply_call request)) as [completion|e]; simpl;
    [|done].
  by destruct (rewrite_reply_normalize (base_reply request) completion).
Qed.

(** *** Validation of the response models *)

Lemma mapM_validate_str_texts (l : list pyval) :
  forallb is_str l = true → mapM Pydantic.validate_str l = Some (texts l).
Proof.
  induction l as [|v l IH]; simpl; [done|].
  intros [Hv Hl]%andb_prop. destruct v; try discriminate.
  simpl. by rewrite (IH Hl).
Qed.

Lemma mapM_validate_str_reject (l : list pyval) :
  forallb is_str l = false → mapM Pydantic.validate_str l = None.
Proof.
  induction l as [|v l IH]; simpl; [done|].
  intros [Hv|Hl]%andb_false_iff.
  - by destruct v.
  - rewrite (IH Hl). by destruct (Pydantic.validate_str v).
Qed.

Lemma mapM_validate_str_fmap (ts : list string) :
  mapM Pydantic.validate_str (PyStr <$> ts) = Some ts.
Proof. induction ts as [|t ts IH]; [done|]. rewrite fmap_cons. simpl. by rewrite IH. Qed.

Lemma validate_str_default (dflt : string) (o : option pyval) :
  Pydantic.validate_str (default (PyStr dflt) o)
  = if text_or_absent o then Some (text_of dflt o) else None.
Proof. destruct o as [[]|]; reflexivity. Qed.

Lemma validate_tasks_default (o : option pyval) :
  let t := default (PyList []) o in
  Pydantic.validate_list_str (if isinstance_list t then t else PyList [])
  = if tasks_acceptable o then Some (tasks_of o) else None.
Proof.
  destruct o as [[]|]; try reflexivity. simpl.
  destruct (forallb is_str l) eqn:Hl.
  - by apply mapM_validate_str_texts.
  - by apply mapM_validate_str_reject.
Qed.

(** *** The handlers on a decoded JSON object *)

Lemma analyze_message_fields_spec (d : gmap string pyval) :
  analyze_message_fields (PyDict d)
  = if analysis_acceptable d then Return (analysis_defaulted d) else Raise ValidationError.
Proof.
  unfold analyze_message_fields, new_MessageAnalysisResponse, analysis_acceptable,
    analysis_defaulted. simpl.
  rewrite !validate_str_default, validate_tasks_default.
  destruct (text_or_absent (d !! "classification")); [|done].
  destruct (text_or_absent (d !! "summary")); [|done].
  destruct (tasks_acceptable (d !! "tasks")); [|done].
  destruct (text_or_absent (d !! "suggested_reply")); done.
Qed.

Lemma rewrite_reply_fields_spec (base : string) (d : gmap string pyval) :
  rewrite_reply_fields base (PyDict d)
  = if text_or_absent (d !! "rewritten_reply")
    then Return {| rewritten_reply := text_of base (d !! "rewritten_reply") |}
    else Raise ValidationError.
Proof.
  unfold rewrite_reply_fields, new_RewriteResponse. simpl.
  rewrite validate_str_default.
  by destruct (text_or_absent (d !! "rewritten_reply")).
Qed.

Lemma normalize_text {A : Type} (r : result OpenAI.ChatCompletion)
    (k : pyval → result A) (text : string) :
  upstream_text r = Some text →
  (completion ← r; choice ← py_index (OpenAI.choices completion) 0;
   data ← json_loads (OpenAI.content (OpenAI.message choice)); k data)
  = (data ← json_loads (Some text); k data).
Proof.
  destruct r as [completion|e]; simpl; [|done].
  unfold py_index. destruct (OpenAI.choices completion !! 0) as [choice|]; simpl; [|done].
  by intros ->.
Qed.

Lemma analyze_message_try_json client request text v :
  upstream_text (create client (analyze_message_call request)) = Some text →
  decode text = Some v →
  analyze_message_try client request = analyze_message_fields v.
Proof.
  intros Htext Hv. rewrite !analyze_message_try_eq. unfold analyze_message_normalize.
  rewrite (normalize_text _ _ _ Htext). simpl. by rewrite Hv.
Qed.

Lemma rewrite_reply_try_json client request text v :
  upstream_text (create client (rewrite_reply_call request)) = Some text →
  decode text = Some v →
  rewrite_reply_try client request = rewrite_reply_fields (base_reply request) v.
Proof.
  intros Htext Hv. rewrite !rewrite_reply_try_eq. unfold rewrite_reply_normalize.
  rewrite (normalize_text _ _ _ Htext). simpl. by rewrite Hv.
Qed.

Lemma analyze_message_response_json client request text d :
  upstream_text (create client (analyze_message_call request)) = Some text →
  decode text = Some (PyDict d) →
  analyze_message client request
  = if analysis_acceptable d
    then {| trace := [CompletionRequested client (analyze_message_call request)];
            response := Success (analysis_defaulted d) |}
    else {| trace := [CompletionRequested client (analyze_message_call request);
                      Printed "Error in /analyze_message:" ValidationError];
            response := HTTPException 500 "Error analyzing message" |}.
Proof.
  intros Htext Hd. rewrite !analyze_message_eq.
  rewrite (analyze_message_try_json _ _ _ _ Htext Hd), analyze_message_fields_spec.
  by destruct (analysis_acceptable d).
Qed.

Lemma rewrite_reply_response_json client request text d :
  upstream_text (create client (rewrite_reply_call request)) = Some text →
  decode text = Some (PyDict d) →
  rewrite_reply client request
  = if text_or_absent (d !! "rewritten_reply")
    then {| trace := [CompletionRequested client (rewrite_reply_call request)];
            response :=
              Success {| rewritten_reply :=
                           text_of (base_reply request) (d !! "rewritten_reply") |} |}
    else {| trace := [CompletionRequested client (rewrite_reply_call request);
                      Printed "Error in /rewrite_reply:" ValidationError];
            response := HTTPException 500 "Error rewriting reply" |}.
Proof.
  intros Htext Hd. rewrite !rewrite_reply_eq.
  rewrite (rewrite_reply_try_json _ _ _ _ Htext Hd), rewrite_reply_fields_spec.
  by destruct (text_or_absent (d !! "rewritten_reply")).
Qed.

Lemma analysis_acceptable_split (d : gmap string pyval) :
  analysis_acceptable d = true ↔
  text_or_absent (d !! "classification") = true
  ∧ text_or_absent (d !! "summary") = true
  ∧ tasks_acceptable (d !! "tasks") = true
  ∧ text_or_absent (d !! "suggested_reply") = true.
Proof. unfold analysis_acceptable. rewrite !andb_true_iff. tauto. Qed.

(** *** The request/response contract *)

(** C1 (as amended): for an upstream answer that is a JSON object whose
    present fields pass the response model (classification, summary and
    suggested_reply each missing or text; tasks missing, not a list, or a
    list of text), the handler succeeds and every missing field carries
    its documented default; in [rewrite_reply] a missing rewritten_reply
    becomes the request's base_reply, whatever else the object holds. *)
Theorem missing_fields_take_defaults :
  (∀ client request text d,
      upstream_text (create client (analyze_message_call request)) = Some text →
      decode text = Some (PyDict d) →
      analysis_acceptable d = true →
      ∃ body,
        response (analyze_message client request) = Success body
        ∧ (d !! "classification" = None → classification body = "Informational")
        ∧ (d !! "summary" = None → summary body = "")
        ∧ (d !! "tasks" = None → tasks body = [])
        ∧ (d !! "suggested_reply" = None → suggested_reply body = ""))
  ∧ (∀ client request text d,
      upstream_text (create client (rewrite_reply_call request)) = Some text →
      decode text = Some (PyDict d) →
      d !! "rewritten_reply" = None →
      response (rewrite_reply client request)
      = Success {| rewritten_reply := base_reply request |}).
Proof.
  split.
  - intros client request text d Htext Hd Hok.
    rewrite (analyze_message_response_json _ _ _ _ Htext Hd), Hok.
    eexists; split; [reflexivity|].
    unfold analysis_defaulted; simpl.
    repeat split; intros ->; reflexivity.
  - intros client request text d Htext Hd Hnone.
    rewrite (rewrite_reply_response_json _ _ _ _ Htext Hd), Hnone. reflexivity.
Qed.

(** C2: when the upstream JSON object holds every field in the shape the
    output requires (classification, summary, suggested_reply text, tasks
    a list of text; rewritten_reply text), the success output carries
    exactly those values. *)
Theorem present_fields_pass_verbatim :
  (∀ client request text d c s ts r,
      upstream_text (create client (analyze_message_call request)) = Some text →
      decode text = Some (PyDict d) →
      d !! "classification" = Some (PyStr c) →
      d !! "summary" = Some (PyStr s) →
      d !! "tasks" = Some (PyList (PyStr <$> ts)) →
      d !! "suggested_reply" = Some (PyStr r) →
      response (analyze_message client request)
      = Success {| classification := c; summary := s; tasks := ts;
                   suggested_reply := r |})
  ∧ (∀ client request text d r,
      upstream_text (create client (rewrite_reply_call request)) = Some text →
      decode text = Some (PyDict d) →
      d !! "rewritten_reply" = Some (PyStr r) →
      response (rewrite_reply client request) = Success {| rewritten_reply := r |}).
Proof.
  split.
  - intros client request text d c s ts r Htext Hd Hc Hs Ht Hr.
    rewrite !analyze_message_eq.
    rewrite (analyze_message_try_json _ _ _ _ Htext Hd).
    unfold analyze_message_fields, new_MessageAnalysisResponse. simpl.
    rewrite Hc, Hs, Ht, Hr. simpl.
    rewrite mapM_validate_str_fmap. reflexivity.
  - intros client request text d r Htext Hd Hr.
    rewrite !rewrite_reply_eq.
    rewrite (rewrite_reply_try_json _ _ _ _ Htext Hd).
    unfold rewrite_reply_fields, new_RewriteResponse. simpl.
    rewrite Hr. reflexivity.
Qed.

(** C3 (as amended): when tasks is present but not a list, and
    classification, summary and suggested_reply are each missing or
    text, the handler succeeds with tasks equal to the empty sequence. *)
Theorem non_list_tasks_become_empty client request text d v :
  upstream_text (create client (analyze_message_call request)) = Some text →
  decode text = Some (PyDict d) →
  d !! "tasks" = Some v →
  isinstance_list v = false →
  text_or_absent (d !! "classification") = true →
  text_or_absent (d !! "summary") = true →
  text_or_absent (d !! "suggested_reply") = true →
  ∃ body,
    response (analyze_message client request) = Success body ∧ tasks body = [].
Proof.
  intros Htext Hd Hv Hlist Hc Hs Hr.
  assert (analysis_acceptable d = true) as Hok.
  { apply analysis_acceptable_split. repeat split; try done.
    rewrite Hv. by destruct v. }
  rewrite (analyze_message_response_json _ _ _ _ Htext Hd), Hok.
  eexists; split; [reflexivity|]. simpl. rewrite Hv. by destruct v.
Qed.

(** C4: when the upstream text is not valid JSON, and more generally on
    any exception raised while calling the service or normalising its
    answer (the call itself fails, the decoded document is not an
    object, ...), the endpoint answers with status 500 and a fixed detail
    that does not depend on the cause; the cause goes to the server log
    only.  A handler ends in a success body or in that error, nothing
    else. *)
Theorem failures_give_generic_error :
  (∀ client request,
      (∀ text,
          upstream_text (create client (analyze_message_call request)) = Some text →
          decode text = None →
          analyze_message client request
          = {| trace := [CompletionRequested client (analyze_message_call request);
                         Printed "Error in /analyze_message:" JSONDecodeError];
               response := HTTPException 500 "Error analyzing message" |})
      ∧ (∀ e,
          create client (analyze_message_call request) = Raise e →
          analyze_message client request
          = {| trace := [CompletionRequested client (analyze_message_call request);
                         Printed "Error in /analyze_message:" e];
               response := HTTPException 500 "Error analyzing message" |})
      ∧ (∀ text v,
          upstream_text (create client (analyze_message_call request)) = Some text →
          decode text = Some v →
          (∀ d, v ≠ PyDict d) →
          analyze_message client request
          = {| trace := [CompletionRequested client (analyze_message_call request);
                         Printed "Error in /analyze_message:" AttributeError];
               response := HTTPException 500 "Error analyzing message" |})
      ∧ (∀ e,
          analyze_message_try client request = Raise e →
          analyze_message client request
          = {| trace := [CompletionRequested client (analyze_message_call request);
                         Printed "Error in /analyze_message:" e];
               response := HTTPException 500 "Error analyzing message" |})
      ∧ ((∃ body, response (analyze_message client request) = Success body)
         ∨ response (analyze_message client request)
           = HTTPException 500 "Error analyzing message"))
  ∧ (∀ client request,
      (∀ text,
          upstream_text (create client (rewrite_reply_call request)) = Some text →
          decode text = None →
          rewrite_reply client request
          = {| trace := [CompletionRequested client (rewrite_reply_call request);
                         Printed "Error in /rewrite_reply:" JSONDecodeError];
               response := HTTPException 500 "Error rewriting reply" |})
      ∧ (∀ e,
          create client (rewrite_reply_call request) = Raise e →
          rewrite_reply client request
          = {| trace := [CompletionRequested client (rewrite_reply_call request);
                         Printed "Error in /rewrite_reply:" e];
               response := HTTPException 500 "Error rewriting reply" |})
      ∧ (∀ text v,
          upstream_text (create client (rewrite_reply_call request)) = Some text →
          decode text = Some v →
          (∀ d, v ≠ PyDict d) →
          rewrite_reply client request
          = {| trace := [CompletionRequested client (rewrite_reply_call request);
                         Printed "Error in /rewrite_reply:" AttributeError];
               response := HTTPException 500 "Error rewriting reply" |})
      ∧ (∀ e,
          rewrite_reply_try client request = Raise e →
          rewrite_reply client request
          = {| trace := [CompletionRequested client (rewrite_reply_call request);
                         Printed "Error in /rewrite_reply:" e];
               response := HTTPException 500 "Error rewriting reply" |})
      ∧ ((∃ body, response (rewrite_reply client request) = Success body)
         ∨ response (rewrite_reply client request)
           = HTTPException 500 "Error rewriting reply")).
Proof.
  split; intros client request; repeat split.
  - intros text Htext Hnone. rewrite !analyze_message_eq, !analyze_message_try_eq. unfold analyze_message_normalize.
    rewrite (normalize_text _ _ _ Htext). simpl. by rewrite Hnone.
  - intros e He. rewrite !analyze_message_eq, !analyze_message_try_eq. by rewrite He.
  - intros text v Htext Hv Hnd. rewrite !analyze_message_eq.
    rewrite (analyze_message_try_json _ _ _ _ Htext Hv).
    destruct v; try done. by destruct (Hnd d).
  - intros e He. rewrite !analyze_message_eq. by rewrite He.
  - rewrite !analyze_message_eq.
    destruct (analyze_message_try client request) as [body|e]; simpl; eauto.
  - intros text Htext Hnone. rewrite !rewrite_reply_eq, !rewrite_reply_try_eq. unfold rewrite_reply_normalize.
    rewrite (normalize_text _ _ _ Htext). simpl. by rewrite Hnone.
  - intros e He. rewrite !rewrite_reply_eq, !rewrite_reply_try_eq. by rewrite He.
  - intros text v Htext Hv Hnd. rewrite !rewrite_reply_eq.
    rewrite (rewrite_reply_try_json _ _ _ _ Htext Hv).
    destruct v; try done. by destruct (Hnd d).
  - intros e He. rewrite !rewrite_reply_eq. by rewrite He.
  - rewrite !rewrite_reply_eq.
    destruct (rewrite_reply_try client request) as [body|e]; simpl; eauto.
Qed.

(** C5 (as amended): for an upstream JSON object, every field read has
    an explicit default, used when the field is missing, and a tasks
    value that is not a list degrades to the empty sequence; but a
    classification, summary, suggested_reply or rewritten_reply that is
    present and not text, or a tasks list with an element that is not
    text, does not degrade to a default: the request fails with the
    generic 500 error.  So the request succeeds exactly on the acceptable
    objects, and with exactly the documented values. *)
Theorem wrong_typed_fields_policy :
  (∀ client request text d,
      upstream_text (create client (analyze_message_call request)) = Some text →
      decode text = Some (PyDict d) →
      response (analyze_message client request)
      = if analysis_acceptable d
        then Success (analysis_defaulted d)
        else HTTPException 500 "Error analyzing message")
  ∧ (∀ client request text d,
      upstream_text (create client (rewrite_reply_call request)) = Some text →
      decode text = Some (PyDict d) →
      response (rewrite_reply client request)
      = if text_or_absent (d !! "rewritten_reply")
        then Success {| rewritten_reply :=
                          text_of (base_reply request) (d !! "rewritten_reply") |}
        else HTTPException 500 "Error rewriting reply").
Proof.
  split; intros client request text d Htext Hd.
  - rewrite (analyze_message_response_json _ _ _ _ Htext Hd).
    by destruct (analysis_acceptable d).
  - rewrite (rewrite_reply_response_json _ _ _ _ Htext Hd).
    by destruct (text_or_absent (d !! "rewritten_reply")).
Qed.

(** C6 (as amended): when classification is present as text, and
    summary, suggested_reply and tasks pass the response model (missing
    or text; missing, not a list, or a list of text), the caller receives
    that classification unchanged, whether or not it is one of the five
    labels: nothing validates, rejects or clamps it. *)
Theorem classification_passes_unvalidated client request text d c :
  upstream_text (create client (analyze_message_call request)) = Some text →
  decode text = Some (PyDict d) →
  d !! "classification" = Some (PyStr c) →
  text_or_absent (d !! "summary") = true →
  tasks_acceptable (d !! "tasks") = true →
  text_or_absent (d !! "suggested_reply") = true →
  ∃ body,
    response (analyze_message client request) = Success body
    ∧ classification body = c.
Proof.
  intros Htext Hd Hc Hs Ht Hr.
  assert (analysis_acceptable d = true) as Hok.
  { apply analysis_acceptable_split. repeat split; try done. by rewrite Hc. }
  rewrite (analyze_message_response_json _ _ _ _ Htext Hd), Hok.
  eexists; split; [reflexivity|]. simpl. by rewrite Hc.
Qed.


(** *** Start-up *)

Lemma dispatch_constructs_no_client app r :
  List.filter is_ClientConstructed (reply_trace (dispatch app r)) = [].
Proof.
  destruct r as [request|request]; simpl.
  - rewrite !analyze_message_eq.
    by destruct (analyze_message_try (client app) request).
  - rewrite !rewrite_reply_eq.
    by destruct (rewrite_reply_try (client app) request).
Qed.

Lemma serving_constructs_no_client app (requests : list http_request) :
  List.filter is_ClientConstructed (concat (reply_trace <$> (dispatch app <$> requests)))
  = [].
Proof.
  induction requests as [|r requests IH]; [done|].
  rewrite !fmap_cons. simpl.
  by rewrite List.filter_app, dispatch_constructs_no_client, IH.
Qed.

(** C8 (as amended): if OPENAI_API_KEY is not set, or is set to the
    empty string, importing the module raises and no request is served;
    if it is set to a non-empty value, start-up proceeds, every request
    is served with the one client built from that value, and the client
    is constructed exactly once. *)
Theorem startup_requires_nonempty_key :
  (∀ environ requests,
      environ !! "OPENAI_API_KEY" = None ∨ environ !! "OPENAI_API_KEY" = Some "" →
      run environ requests = ([], Raise (RuntimeError "OPENAI_API_KEY is not set in .env")))
  ∧ (∀ environ requests key,
      environ !! "OPENAI_API_KEY" = Some key →
      key ≠ "" →
      ∃ tr,
        run environ requests
        = (tr, Return (dispatch {| client := {| OpenAI.api_key := key |} |} <$> requests))
        ∧ List.filter is_ClientConstructed tr = [ClientConstructed key]).
Proof.
  split.
  - intros environ requests [Hkey|Hkey]; unfold run, module_init; by rewrite Hkey.
  - intros environ requests key Hkey Hne. unfold run, module_init. rewrite Hkey.
    destruct (decide (key = "")) as [->|_]; [done|].
    eexists; split; [reflexivity|].
    rewrite List.filter_app, serving_constructs_no_client. reflexivity.
Qed.

(** *** Validation failures and the independence of normalisation *)

(** C9: when the upstream JSON object holds a classification, summary or
    suggested_reply that is not text, or a tasks list with an element
    that is not text (analyze_message), or a rewritten_reply that is not
    text (rewrite_reply), the validation error of the response model is
    caught by the handler's catch-all: it is logged and the endpoint
    answers with the generic 500 error. *)
Theorem invalid_fields_give_generic_error :
  (∀ client request text d,
      upstream_text (create client (analyze_message_call request)) = Some text →
      decode text = Some (PyDict d) →
      (∃ v, d !! "classification" = Some v ∧ is_str v = false)
      ∨ (∃ v, d !! "summary" = Some v ∧ is_str v = false)
      ∨ (∃ v, d !! "suggested_reply" = Some v ∧ is_str v = false)
      ∨ (∃ l v, d !! "tasks" = Some (PyList l) ∧ v ∈ l ∧ is_str v = false) →
      analyze_message client request
      = {| trace := [CompletionRequested client (analyze_message_call request);
                     Printed "Error in /analyze_message:" ValidationError];
           response := HTTPException 500 "Error analyzing message" |})
  ∧ (∀ client request text d v,
      upstream_text (create client (rewrite_reply_call request)) = Some text →
      decode text = Some (PyDict d) →
      d !! "rewritten_reply" = Some v →
      is_str v = false →
      rewrite_reply client request
      = {| trace := [CompletionRequested client (rewrite_reply_call request);
                     Printed "Error in /rewrite_reply:" ValidationError];
           response := HTTPException 500 "Error rewriting reply" |}).
Proof.
  split.
  - intros client request text d Htext Hd Hbad.
    rewrite (analyze_message_response_json _ _ _ _ Htext Hd).
    assert (analysis_acceptable d = false) as ->; [|done].
    unfold analysis_acceptable. rewrite !andb_false_iff.
    destruct Hbad as [(v & -> & Hv)|[(v & -> & Hv)|[(v & -> & Hv)|(l & v & -> & Hin & Hv)]]];
      simpl; auto.
    left; right. apply not_true_is_false. intros Hall.
    rewrite forallb_forall in Hall.
    apply list_elem_of_In, Hall in Hin. congruence.
  - intros client request text d v Htext Hd Hv Hstr.
    rewrite (rewrite_reply_response_json _ _ _ _ Htext Hd), Hv. simpl.
    by rewrite Hstr.
Qed.

(** C10: the mapping from the upstream text to the caller-facing result
    of rewrite_reply depends on the request through base_reply only:
    two requests with the same base_reply, answered with the same
    upstream text, get the same response, whatever their style and
    original_message. *)
Theorem rewrite_normalization_ignores_style client1 client2 request1 request2 text :
  base_reply request1 = base_reply request2 →
  upstream_text (create client1 (rewrite_reply_call request1)) = Some text →
  upstream_text (create client2 (rewrite_reply_call request2)) = Some text →
  response (rewrite_reply client1 request1) = response (rewrite_reply client2 request2).
Proof.
  intros Hbase Htext1 Htext2. rewrite !rewrite_reply_eq, !rewrite_reply_try_eq. unfold rewrite_reply_normalize.
  rewrite (normalize_text _ _ _ Htext1), (normalize_text _ _ _ Htext2), Hbase.
  by destruct (data ← json_loads (Some text); rewrite_reply_fields (base_reply request2) data).
Qed.

(** ** Further properties of the routes *)

Lemma analyze_message_response_of_fields client request v :
  analysis_answered client request v →
  response (analyze_message client request)
  = match analyze_message_fields v with
    | Return body => Success body
    | Raise _ => HTTPException 500 "Error analyzing message"
    end.
Proof.
  intros (text & Htext & Hv). rewrite !analyze_message_eq.
  rewrite (analyze_message_try_json _ _ _ _ Htext Hv).
  by destruct (analyze_message_fields v).
Qed.

Lemma rewrite_reply_response_of_fields client request v :
  rewrite_answered client request v →
  response (rewrite_reply client request)
  = match rewrite_reply_fields (base_reply request) v with
    | Return body => Success body
    | Raise _ => HTTPException 500 "Error rewriting reply"
    end.
Proof.
  intros (text & Htext & Hv). rewrite !rewrite_reply_eq.
  rewrite (rewrite_reply_try_json _ _ _ _ Htext Hv).
  by destruct (rewrite_reply_fields (base_reply request) v).
Qed.

Lemma analyze_message_fields_insert_unread (d : gmap string pyval) k v :
  k ∉ analysis_keys →
  analyze_message_fields (PyDict (<[k:=v]> d)) = analyze_message_fields (PyDict d).
Proof.
  intros Hk. unfold analyze_message_fields. simpl.
  rewrite !lookup_insert_ne; [done|..]; intros ->; apply Hk; unfold analysis_keys;
    set_solver.
Qed.

Lemma analyze_message_fields_insert_default (d : gmap string pyval) k dflt :
  (k, dflt) ∈ analysis_defaults →
  d !! k = None →
  analyze_message_fields (PyDict (<[k:=dflt]> d)) = analyze_message_fields (PyDict d).
Proof.
  unfold analysis_defaults. rewrite !elem_of_cons, elem_of_nil.
  intros [Hk|[Hk|[Hk|[Hk|[]]]]] Hnone; inversion Hk; subst k dflt;
    unfold analyze_message_fields; simpl;
    rewrite lookup_insert_eq, !lookup_insert_ne, Hnone by done; done.
Qed.

Lemma analyze_message_fields_delete_tasks (d : gmap string pyval) v :
  d !! "tasks" = Some v →
  isinstance_list v = false →
  analyze_message_fields (PyDict (delete "tasks" d)) = analyze_message_fields (PyDict d).
Proof.
  intros Hv Hlist. unfold analyze_message_fields. simpl.
  rewrite lookup_delete_eq, !lookup_delete_ne, Hv by done. simpl.
  by rewrite Hlist.
Qed.


(** X2: the payload of [rewrite_reply] keeps the whole request: two
    requests that differ in original_message, base_reply or style have
    different payloads. *)
Theorem rewrite_reply_payload_keeps_request request1 request2 :
  request1 ≠ request2 →
  rewrite_reply_payload request1 ≠ rewrite_reply_payload request2.
Proof.
  intros Hne Hpay. apply Hne.
  assert (∀ k, rewrite_reply_payload request1 !! k = rewrite_reply_payload request2 !! k)
    as Hlook by (intros k; by rewrite Hpay).
  pose proof (Hlook "original_message") as Ho.
  pose proof (Hlook "base_reply") as Hb.
  pose proof (Hlook "style") as Hs.
  unfold rewrite_reply_payload in Ho, Hb, Hs. simplify_map_eq.
  destruct request1, request2; simpl in *; congruence.
Qed.

(** X3: a completion without choices, or whose first choice holds no
    text, is an internal failure: the handler logs the [IndexError],
    respectively the [TypeError], and answers with the generic 500. *)
Theorem empty_completion_gives_generic_error :
  (∀ client request completion,
      create client (analyze_message_call request) = Return completion →
      (OpenAI.choices completion = [] →
       analyze_message client request
       = {| trace := [CompletionRequested client (analyze_message_call request);
                      Printed "Error in /analyze_message:" IndexError];
            response := HTTPException 500 "Error analyzing message" |})
      ∧ (∀ choice,
          OpenAI.choices completion !! 0 = Some choice →
          OpenAI.content (OpenAI.message choice) = None →
          analyze_message client request
          = {| trace := [CompletionRequested client (analyze_message_call request);
                         Printed "Error in /analyze_message:" TypeError];
               response := HTTPException 500 "Error analyzing message" |}))
  ∧ (∀ client request completion,
      create client (rewrite_reply_call request) = Return completion →
      (OpenAI.choices completion = [] →
       rewrite_reply client request
       = {| trace := [CompletionRequested client (rewrite_reply_call request);
                      Printed "Error in /rewrite_reply:" IndexError];
            response := HTTPException 500 "Error rewriting reply" |})
      ∧ (∀ choice,
          OpenAI.choices completion !! 0 = Some choice →
          OpenAI.content (OpenAI.message choice) = None →
          rewrite_reply client request
          = {| trace := [CompletionRequested client (rewrite_reply_call request);
                         Printed "Error in /rewrite_reply:" TypeError];
               response := HTTPException 500 "Error rewriting reply" |})).
Proof.
  split; intros client request completion Hcreate; split.
  - intros Hnil. rewrite !analyze_message_eq, !analyze_message_try_eq. unfold analyze_message_normalize, py_index.
    rewrite Hcreate. simpl. by rewrite Hnil.
  - intros choice Hchoice Hnone.
    rewrite !analyze_message_eq, !analyze_message_try_eq. unfold analyze_message_normalize, py_index.
    rewrite Hcreate. simpl. rewrite Hchoice. simpl. by rewrite Hnone.
  - intros Hnil. rewrite !rewrite_reply_eq, !rewrite_reply_try_eq. unfold rewrite_reply_normalize, py_index.
    rewrite Hcreate. simpl. by rewrite Hnil.
  - intros choice Hchoice Hnone.
    rewrite !rewrite_reply_eq, !rewrite_reply_try_eq. unfold rewrite_reply_normalize, py_index.
    rewrite Hcreate. simpl. rewrite Hchoice. simpl. by rewrite Hnone.
Qed.

(** X4: of a completion only the first choice is read: two calls whose
    completions have the same first choice (or both none) get the same
    response, whatever the other choices, the client and the rest of the
    request; [rewrite_reply] also needs the same base_reply. *)
Theorem only_first_choice_is_read :
  (∀ client1 client2 request1 request2 completion1 completion2,
      create client1 (analyze_message_call request1) = Return completion1 →
      create client2 (analyze_message_call request2) = Return completion2 →
      OpenAI.choices completion1 !! 0 = OpenAI.choices completion2 !! 0 →
      response (analyze_message client1 request1)
      = response (analyze_message client2 request2))
  ∧ (∀ client1 client2 request1 request2 completion1 completion2,
      create client1 (rewrite_reply_call request1) = Return completion1 →
      create client2 (rewrite_reply_call request2) = Return completion2 →
      OpenAI.choices completion1 !! 0 = OpenAI.choices completion2 !! 0 →
      base_reply request1 = base_reply request2 →
      response (rewrite_reply client1 request1)
      = response (rewrite_reply client2 request2)).
Proof.
  split.
  - intros client1 client2 request1 request2 completion1 completion2 H1 H2 Hfirst.
    rewrite !analyze_message_eq, !analyze_message_try_eq. unfold analyze_message_normalize, py_index.
    rewrite H1, H2. simpl. rewrite Hfirst.
    destruct (OpenAI.choices completion2 !! 0) as [choice|]; simpl; [|done].
    by destruct (data ← json_loads (OpenAI.content (OpenAI.message choice));
                 analyze_message_fields data).
  - intros client1 client2 request1 request2 completion1 completion2 H1 H2 Hfirst Hbase.
    rewrite !rewrite_reply_eq, !rewrite_reply_try_eq. unfold rewrite_reply_normalize, py_index.
    rewrite H1, H2. simpl. rewrite Hfirst, Hbase.
    destruct (OpenAI.choices completion2 !! 0) as [choice|]; simpl; [|done].
    by destruct (data ← json_loads (OpenAI.content (OpenAI.message choice));
                 rewrite_reply_fields (base_reply request2) data).
Qed.

(** X5: fields of the upstream object that the handler does not read are
    ignored: adding or changing one never changes the response. *)
Theorem unread_fields_are_ignored :
  (∀ client1 client2 request1 request2 d k v,
      k ∉ analysis_keys →
      analysis_answered client1 request1 (PyDict d) →
      analysis_answered client2 request2 (PyDict (<[k:=v]> d)) →
      response (analyze_message client1 request1)
      = response (analyze_message client2 request2))
  ∧ (∀ client1 client2 request1 request2 d k v,
      k ≠ "rewritten_reply" →
      base_reply request1 = base_reply request2 →
      rewrite_answered client1 request1 (PyDict d) →
      rewrite_answered client2 request2 (PyDict (<[k:=v]> d)) →
      response (rewrite_reply client1 request1)
      = response (rewrite_reply client2 request2)).
Proof.
  split.
  - intros client1 client2 request1 request2 d k v Hk H1 H2.
    rewrite (analyze_message_response_of_fields _ _ _ H1),
      (analyze_message_response_of_fields _ _ _ H2).
    by rewrite analyze_message_fields_insert_unread.
  - intros client1 client2 request1 request2 d k v Hk Hbase H1 H2.
    rewrite (rewrite_reply_response_of_fields _ _ _ H1),
      (rewrite_reply_response_of_fields _ _ _ H2), Hbase.
    unfold rewrite_reply_fields. simpl. by rewrite lookup_insert_ne.
Qed.

(** X6: leaving a field out is the same as sending its default: if the
    upstream object lacks one of the four fields, the response equals the
    one for the object with that field set to the default of its [get]; in
    [rewrite_reply], a missing rewritten_reply is the same as the
    request's base_reply sent back. *)
Theorem omitted_field_is_its_default :
  (∀ client1 client2 request1 request2 d k dflt,
      (k, dflt) ∈ analysis_defaults →
      d !! k = None →
      analysis_answered client1 request1 (PyDict d) →
      analysis_answered client2 request2 (PyDict (<[k:=dflt]> d)) →
      response (analyze_message client1 request1)
      = response (analyze_message client2 request2))
  ∧ (∀ client1 client2 request1 request2 d,
      d !! "rewritten_reply" = None →
      rewrite_answered client1 request1 (PyDict d) →
      rewrite_answered client2 request2
        (PyDict (<[ "rewritten_reply" := PyStr (base_reply request1) ]> d)) →
      response (rewrite_reply client1 request1)
      = response (rewrite_reply client2 request2)).
Proof.
  split.
  - intros client1 client2 request1 request2 d k dflt Hk Hnone H1 H2.
    rewrite (analyze_message_response_of_fields _ _ _ H1),
      (analyze_message_response_of_fields _ _ _ H2).
    by rewrite analyze_message_fields_insert_default.
  - intros client1 client2 request1 request2 d Hnone H1 H2.
    rewrite (rewrite_reply_response_of_fields _ _ _ H1),
      (rewrite_reply_response_of_fields _ _ _ H2).
    unfold rewrite_reply_fields. simpl. by rewrite lookup_insert_eq, Hnone.
Qed.

(** X7: a tasks value that is not a list is treated exactly as a missing
    tasks field: the response equals the one for the object with tasks
    removed, whatever the other fields hold. *)
Theorem non_list_tasks_is_omitted_tasks client1 client2 request1 request2 d v :
  d !! "tasks" = Some v →
  isinstance_list v = false →
  analysis_answered client1 request1 (PyDict d) →
  analysis_answered client2 request2 (PyDict (delete "tasks" d)) →
  response (analyze_message client1 request1)
  = response (analyze_message client2 request2).
Proof.
  intros Hv Hlist H1 H2.
  rewrite (analyze_message_response_of_fields _ _ _ H1),
    (analyze_message_response_of_fields _ _ _ H2).
  by rewrite (analyze_message_fields_delete_tasks _ _ Hv Hlist).
Qed.

(** X8: which text the classification is never decides anything: for two
    upstream objects that differ in the text of classification only,
    either both requests fail with the generic 500, or both succeed with
    bodies that differ in classification only, each carrying its own. *)
Theorem classification_text_never_decides client1 client2 request1 request2 d c1 c2 :
  analysis_answered client1 request1 (PyDict (<[ "classification" := PyStr c1 ]> d)) →
  analysis_answered client2 request2 (PyDict (<[ "classification" := PyStr c2 ]> d)) →
  (response (analyze_message client1 request1) = HTTPException 500 "Error analyzing message"
   ∧ response (analyze_message client2 request2)
     = HTTPException 500 "Error analyzing message")
  ∨ (∃ s t r,
        response (analyze_message client1 request1)
        = Success {| classification := c1; summary := s; tasks := t; suggested_reply := r |}
        ∧ response (analyze_message client2 request2)
          = Success {| classification := c2; summary := s; tasks := t;
                       suggested_reply := r |}).
Proof.
  intros H1 H2.
  rewrite (analyze_message_response_of_fields _ _ _ H1),
    (analyze_message_response_of_fields _ _ _ H2), !analyze_message_fields_spec.
  unfold analysis_acceptable, analysis_defaulted.
  rewrite !lookup_insert_eq, !lookup_insert_ne by done. simpl.
  destruct (text_or_absent (d !! "summary")); simpl; [|by left].
  destruct (tasks_acceptable (d !! "tasks")); simpl; [|by left].
  destruct (text_or_absent (d !! "suggested_reply")); simpl; [|by left].
  right. eauto.
Qed.

(** X9: a success is never made up: when a handler answers with a success
    body, the service did answer with text that decodes to a JSON object
    whose present fields pass the response model, and the body is the
    normalisation of that object. *)
Theorem success_comes_from_upstream_object :
  (∀ client request body,
      response (analyze_message client request) = Success body →
      ∃ d,
        analysis_answered client request (PyDict d)
        ∧ analysis_acceptable d = true
        ∧ body = analysis_defaulted d)
  ∧ (∀ client request body,
      response (rewrite_reply client request) = Success body →
      ∃ d,
        rewrite_answered client request (PyDict d)
        ∧ text_or_absent (d !! "rewritten_reply") = true
        ∧ body = {| rewritten_reply :=
                      text_of (base_reply request) (d !! "rewritten_reply") |}).
Proof.
  split.
  - intros client request body. rewrite !analyze_message_eq.
    destruct (analyze_message_try client request) as [body'|e] eqn:Htry; simpl; [|done].
    intros [= ->]. rewrite analyze_message_try_eq in Htry.
    destruct (create client (analyze_message_call request)) as [completion|e] eqn:Hcreate;
      simpl in Htry; [|done].
    unfold analyze_message_normalize, py_index in Htry.
    destruct (OpenAI.choices completion !! 0) as [choice|] eqn:Hchoice; simpl in Htry; [|done].
    destruct (OpenAI.content (OpenAI.message choice)) as [text|] eqn:Hcontent;
      simpl in Htry; [|done].
    destruct (decode text) as [v|] eqn:Hv; simpl in Htry; [|done].
    destruct v as [| | | | | |d]; try done.
    rewrite analyze_message_fields_spec in Htry.
    destruct (analysis_acceptable d) eqn:Hok; [|done].
    injection Htry as <-. exists d. split; [|by split].
    exists text. split; [|done].
    unfold upstream_text. rewrite Hcreate. simpl. rewrite Hchoice. done.
  - intros client request body. rewrite !rewrite_reply_eq.
    destruct (rewrite_reply_try client request) as [body'|e] eqn:Htry; simpl; [|done].
    intros [= ->]. rewrite rewrite_reply_try_eq in Htry.
    destruct (create client (rewrite_reply_call request)) as [completion|e] eqn:Hcreate;
      simpl in Htry; [|done].
    unfold rewrite_reply_normalize, py_index in Htry.
    destruct (OpenAI.choices completion !! 0) as [choice|] eqn:Hchoice; simpl in Htry; [|done].
    destruct (OpenAI.content (OpenAI.message choice)) as [text|] eqn:Hcontent;
      simpl in Htry; [|done].
    destruct (decode text) as [v|] eqn:Hv; simpl in Htry; [|done].
    destruct v as [| | | | | |d]; try done.
    rewrite rewrite_reply_fields_spec in Htry.
    destruct (text_or_absent (d !! "rewritten_reply")) eqn:Hok; [|done].
    injection Htry as <-. exists d. split; [|by split].
    exists text. split; [|done].
    unfold upstream_text. rewrite Hcreate. simpl. rewrite Hchoice. done.
Qed.

Lemma texts_fmap (l : list pyval) :
  forallb is_str l = true → PyStr <$> texts l = l.
Proof.
  induction l as [|v l IH]; [done|]. simpl.
  intros [Hv Hl]%andb_prop. destruct v; try discriminate.
  simpl. f_equal. exact (IH Hl).
Qed.

Lemma text_of_present (dflt : string) (v : pyval) :
  text_or_absent (Some v) = true → v = PyStr (text_of dflt (Some v)).
Proof. by destruct v. Qed.

(** X10: a success body holds what the upstream object holds: every text
    field that is present upstream is that very text in the body, and a
    tasks list upstream is the body's tasks, element for element, in the
    same order. *)
Theorem success_reflects_upstream :
  (∀ client request d body,
      analysis_answered client request (PyDict d) →
      response (analyze_message client request) = Success body →
      (∀ v, d !! "classification" = Some v → v = PyStr (classification body))
      ∧ (∀ v, d !! "summary" = Some v → v = PyStr (summary body))
      ∧ (∀ l, d !! "tasks" = Some (PyList l) → l = PyStr <$> tasks body)
      ∧ (∀ v, d !! "suggested_reply" = Some v → v = PyStr (suggested_reply body)))
  ∧ (∀ client request d body,
      rewrite_answered client request (PyDict d) →
      response (rewrite_reply client request) = Success body →
      ∀ v, d !! "rewritten_reply" = Some v → v = PyStr (rewritten_reply body)).
Proof.
  split.
  - intros client request d body Hans.
    rewrite (analyze_message_response_of_fields _ _ _ Hans), analyze_message_fields_spec.
    destruct (analysis_acceptable d) eqn:Hok; [|done].
    intros [= <-]. apply analysis_acceptable_split in Hok as (Hc & Hs & Ht & Hr).
    unfold analysis_defaulted; simpl. repeat split.
    + intros v Hv. rewrite Hv in Hc |- *. by apply text_of_present.
    + intros v Hv. rewrite Hv in Hs |- *. by apply text_of_present.
    + intros l Hl. rewrite Hl in Ht |- *. simpl in *. by rewrite texts_fmap.
    + intros v Hv. rewrite Hv in Hr |- *. by apply text_of_present.
  - intros client request d body Hans.
    rewrite (rewrite_reply_response_of_fields _ _ _ Hans), rewrite_reply_fields_spec.
    destruct (text_or_absent (d !! "rewritten_reply")) eqn:Hok; [|done].
    intros [= <-] v Hv. simpl. rewrite Hv in Hok |- *. by apply text_of_present.
Qed.

(** *** The process as a whole *)

Lemma dispatch_requests_once app r :
  List.filter is_CompletionRequested (reply_trace (dispatch app r))
  = [CompletionRequested (client app)
       match r with
       | PostAnalyzeMessage request => analyze_message_call request
       | PostRewriteReply request => rewrite_reply_call request
       end].
Proof.
  destruct r as [request|request]; simpl.
  - rewrite !analyze_message_eq. by destruct (analyze_message_try (client app) request).
  - rewrite !rewrite_reply_eq. by destruct (rewrite_reply_try (client app) request).
Qed.

Lemma dispatch_prints_on_failure app r :
  length (List.filter is_Printed (reply_trace (dispatch app r)))
  = if reply_failed (dispatch app r) then 1 else 0.
Proof.
  destruct r as [request|request]; simpl.
  - rewrite !analyze_message_eq. by destruct (analyze_message_try (client app) request).
  - rewrite !rewrite_reply_eq. by destruct (rewrite_reply_try (client app) request).
Qed.

Lemma dispatch_uses_app_client app r ev c :
  ev ∈ reply_trace (dispatch app r) → event_client ev = Some c → c = client app.
Proof.
  destruct r as [request|request]; simpl.
  - rewrite !analyze_message_eq.
    destruct (analyze_message_try (client app) request); simpl;
      rewrite ?elem_of_cons, elem_of_nil; intros Hin Hc;
      repeat (destruct Hin as [->|Hin]; [simpl in Hc; congruence|]); done.
  - rewrite !rewrite_reply_eq.
    destruct (rewrite_reply_try (client app) request); simpl;
      rewrite ?elem_of_cons, elem_of_nil; intros Hin Hc;
      repeat (destruct Hin as [->|Hin]; [simpl in Hc; congruence|]); done.
Qed.

(** X11: once the module has started, every request served invokes
    [client.chat.completions.create] exactly once, on the one client built
    at start-up (the handlers never call it a second time, the start-up
    code never calls it; what the client library does inside one
    invocation is not part of this), and exactly one line is printed for
    each request that fails, none for one that succeeds. *)
Theorem one_completion_request_per_served_request environ requests key :
  environ !! "OPENAI_API_KEY" = Some key →
  key ≠ "" →
  ∃ tr replies,
    run environ requests = (tr, Return replies)
    ∧ length replies = length requests
    ∧ length (List.filter is_CompletionRequested tr) = length requests
    ∧ length (List.filter is_Printed tr) = length (List.filter reply_failed replies)
    ∧ (∀ ev c, ev ∈ tr → event_client ev = Some c → c = {| OpenAI.api_key := key |}).
Proof.
  intros Hkey Hne. unfold run, module_init. rewrite Hkey.
  destruct (decide (key = "")) as [->|_]; [done|].
  set (app := {| client := {| OpenAI.api_key := key |} |}).
  do 2 eexists. split; [reflexivity|].
  split; [by rewrite length_fmap|].
  rewrite !List.filter_app. simpl.
  repeat split.
  - induction requests as [|r requests IH]; [done|].
    rewrite !fmap_cons. simpl.
    by rewrite List.filter_app, length_app, dispatch_requests_once, IH.
  - induction requests as [|r requests IH]; [done|].
    rewrite !fmap_cons. simpl.
    rewrite List.filter_app, length_app, dispatch_prints_on_failure, IH.
    by destruct (reply_failed (dispatch app r)).
  - intros ev c Hin Hc. apply elem_of_cons in Hin as [->|Hin]; [done|].
    induction requests as [|r requests IH]; [by apply elem_of_nil in Hin|].
    rewrite !fmap_cons in Hin. simpl in Hin.
    apply elem_of_app in Hin as [Hin|Hin]; [|by apply IH].
    by apply (dispatch_uses_app_client app r ev c).
Qed.

End Routes.

(** ** The contract on the sample data *)

(** C1, on [{}] : every field is missing, every field takes its default. *)
Lemma missing_fields_take_defaults_witness :
  (∃ body,
      response (analyze_message Doubles.decode (Doubles.answering (Some Doubles.text_empty))
                  Doubles.the_client Doubles.the_message) = Success body
      ∧ classification body = "Informational"
      ∧ summary body = ""
      ∧ tasks body = []
      ∧ suggested_reply body = "")
  ∧ response (rewrite_reply Doubles.decode Doubles.dumps_flat
                (Doubles.answering (Some Doubles.text_empty))
                Doubles.the_client (Doubles.the_rewrite "short"))
    = Success {| rewritten_reply := "Sure, I will review them." |}.
Proof.
  pose proof (missing_fields_take_defaults Doubles.decode Doubles.dumps_flat
                (Doubles.answering (Some Doubles.text_empty))) as [Ha Hr].
  split.
  - destruct (Ha Doubles.the_client Doubles.the_message Doubles.text_empty ∅
                eq_refl eq_refl eq_refl) as (body & Hbody & Hc & Hs & Ht & Hsr).
    exists body. repeat split; auto.
  - exact (Hr Doubles.the_client (Doubles.the_rewrite "short") Doubles.text_empty ∅
             eq_refl eq_refl eq_refl).
Defined.

(** C1 as stated fails on [{"summary": null}]: classification is missing,
    yet the caller gets the generic error, not a body whose
    classification is the default. *)
Lemma missing_field_lost_with_invalid_sibling :
  Doubles.decode Doubles.text_summary_null = Some (PyDict {[ "summary" := PyNone ]})
  ∧ ({[ "summary" := PyNone ]} : gmap string pyval) !! "classification" = None
  ∧ response (analyze_message Doubles.decode
                (Doubles.answering (Some Doubles.text_summary_null))
                Doubles.the_client Doubles.the_message)
    = HTTPException 500 "Error analyzing message"
  ∧ ¬ (∃ body,
          response (analyze_message Doubles.decode
                      (Doubles.answering (Some Doubles.text_summary_null))
                      Doubles.the_client Doubles.the_message) = Success body
          ∧ classification body = "Informational").
Proof.
  repeat split; try reflexivity.
  intros (body & Hbody & _). vm_compute in Hbody. discriminate.
Qed.

(** C2, on the complete sample answer and on scenario B. *)
Lemma present_fields_pass_verbatim_witness :
  response (analyze_message Doubles.decode (Doubles.answering (Some Doubles.text_complete))
              Doubles.the_client Doubles.the_message)
  = Success {| classification := "Request";
               summary := "Review the API docs.";
               tasks := ["Review the API docs"];
               suggested_reply := "Will do." |}
  ∧ response (rewrite_reply Doubles.decode Doubles.dumps_flat
                (Doubles.answering (Some Doubles.text_rewritten))
                Doubles.the_client (Doubles.the_rewrite "short"))
    = Success {| rewritten_reply := "Got it, will do." |}.
Proof.
  split.
  - refine (proj1 (present_fields_pass_verbatim Doubles.decode Doubles.dumps_flat
                     (Doubles.answering (Some Doubles.text_complete)))
              Doubles.the_client Doubles.the_message Doubles.text_complete _
              "Request" "Review the API docs." ["Review the API docs"] "Will do."
              eq_refl eq_refl _ _ _ _); reflexivity.
  - refine (proj2 (present_fields_pass_verbatim Doubles.decode Doubles.dumps_flat
                     (Doubles.answering (Some Doubles.text_rewritten)))
              Doubles.the_client (Doubles.the_rewrite "short") Doubles.text_rewritten _
              "Got it, will do." eq_refl eq_refl _); reflexivity.
Defined.

(** C3, on [{"tasks": "call Bob"}]. *)
Lemma non_list_tasks_become_empty_witness :
  ∃ body,
    response (analyze_message Doubles.decode (Doubles.answering (Some Doubles.text_tasks_string))
                Doubles.the_client Doubles.the_message) = Success body
    ∧ tasks body = [].
Proof.
  refine (non_list_tasks_become_empty Doubles.decode
            (Doubles.answering (Some Doubles.text_tasks_string))
            Doubles.the_client Doubles.the_message Doubles.text_tasks_string
            {[ "tasks" := PyStr "call Bob" ]} (PyStr "call Bob")
            _ _ _ _ _ _ _); reflexivity.
Defined.

(** C3 as stated fails on [{"tasks": 5, "summary": null}]: tasks is not
    a list, yet there is no output whose tasks is empty. *)
Lemma non_list_tasks_lost_with_invalid_sibling :
  Doubles.decode Doubles.text_tasks_number_summary_null
  = Some (PyDict (<[ "tasks" := PyInt 5 ]> {[ "summary" := PyNone ]}))
  ∧ (<[ "tasks" := PyInt 5 ]> {[ "summary" := PyNone ]} : gmap string pyval) !! "tasks"
    = Some (PyInt 5)
  ∧ isinstance_list (PyInt 5) = false
  ∧ response (analyze_message Doubles.decode
                (Doubles.answering (Some Doubles.text_tasks_number_summary_null))
                Doubles.the_client Doubles.the_message)
    = HTTPException 500 "Error analyzing message"
  ∧ ¬ (∃ body,
          response (analyze_message Doubles.decode
                      (Doubles.answering (Some Doubles.text_tasks_number_summary_null))
                      Doubles.the_client Doubles.the_message) = Success body
          ∧ tasks body = []).
Proof.
  repeat split; try reflexivity.
  intros (body & Hbody & _). vm_compute in Hbody. discriminate.
Qed.

(** C4, on scenario C (the upstream text is [not json]) and on a service
    that cannot be reached. *)
Lemma failures_give_generic_error_witness :
  analyze_message Doubles.decode (Doubles.answering (Some Doubles.text_not_json))
    Doubles.the_client Doubles.the_message
  = {| trace := [CompletionRequested Doubles.the_client
                   (analyze_message_call Doubles.the_message);
                 Printed "Error in /analyze_message:" JSONDecodeError];
       response := HTTPException 500 "Error analyzing message" |}
  ∧ rewrite_reply Doubles.decode Doubles.dumps_flat
      (Doubles.failing (APIError "Connection error."))
      Doubles.the_client (Doubles.the_rewrite "short")
    = {| trace := [CompletionRequested Doubles.the_client
                     (rewrite_reply_call Doubles.dumps_flat (Doubles.the_rewrite "short"));
                   Printed "Error in /rewrite_reply:" (APIError "Connection error.")];
         response := HTTPException 500 "Error rewriting reply" |}.
Proof.
  split.
  - apply (proj1 (proj1 (failures_give_generic_error Doubles.decode Doubles.dumps_flat
                           (Doubles.answering (Some Doubles.text_not_json)))
                    Doubles.the_client Doubles.the_message) Doubles.text_not_json);
      reflexivity.
  - apply (proj1 (proj2 (proj2 (failures_give_generic_error Doubles.decode Doubles.dumps_flat
                                  (Doubles.failing (APIError "Connection error.")))
                           Doubles.the_client (Doubles.the_rewrite "short")))).
    reflexivity.
Defined.

(** C5, on [{"tasks": "call Bob"}], which degrades, and on
    [{"rewritten_reply": 5}], which does not. *)
Lemma wrong_typed_fields_policy_witness :
  response (analyze_message Doubles.decode (Doubles.answering (Some Doubles.text_tasks_string))
              Doubles.the_client Doubles.the_message)
  = Success {| classification := "Informational"; summary := ""; tasks := [];
               suggested_reply := "" |}
  ∧ response (rewrite_reply Doubles.decode Doubles.dumps_flat
                (Doubles.answering (Some Doubles.text_rewritten_number))
                Doubles.the_client (Doubles.the_rewrite "short"))
    = HTTPException 500 "Error rewriting reply".
Proof.
  split.
  - exact (proj1 (wrong_typed_fields_policy Doubles.decode Doubles.dumps_flat
                    (Doubles.answering (Some Doubles.text_tasks_string)))
             Doubles.the_client Doubles.the_message Doubles.text_tasks_string
             {[ "tasks" := PyStr "call Bob" ]} eq_refl eq_refl).
  - exact (proj2 (wrong_typed_fields_policy Doubles.decode Doubles.dumps_flat
                    (Doubles.answering (Some Doubles.text_rewritten_number)))
             Doubles.the_client (Doubles.the_rewrite "short") Doubles.text_rewritten_number
             {[ "rewritten_reply" := PyInt 5 ]} eq_refl eq_refl).
Defined.

(** C5 as stated fails on [{"classification": null}]: the field is
    present with the wrong type and the request fails. *)
Lemma wrong_typed_classification_fails :
  Doubles.decode Doubles.text_classification_null
  = Some (PyDict {[ "classification" := PyNone ]})
  ∧ ({[ "classification" := PyNone ]} : gmap string pyval) !! "classification" = Some PyNone
  ∧ is_str PyNone = false
  ∧ analyze_message Doubles.decode (Doubles.answering (Some Doubles.text_classification_null))
      Doubles.the_client Doubles.the_message
    = {| trace := [CompletionRequested Doubles.the_client
                     (analyze_message_call Doubles.the_message);
                   Printed "Error in /analyze_message:" ValidationError];
         response := HTTPException 500 "Error analyzing message" |}
  ∧ ¬ (∃ body,
          response (analyze_message Doubles.decode
                      (Doubles.answering (Some Doubles.text_classification_null))
                      Doubles.the_client Doubles.the_message) = Success body).
Proof.
  repeat split; try reflexivity.
  intros (body & Hbody). vm_compute in Hbody. discriminate.
Qed.

(** C6, on [{"classification": "Spam"}], a label outside the five. *)
Lemma classification_passes_unvalidated_witness :
  ("Spam" ∉ labels)
  ∧ ∃ body,
      response (analyze_message Doubles.decode (Doubles.answering (Some Doubles.text_spam))
                  Doubles.the_client Doubles.the_message) = Success body
      ∧ classification body = "Spam".
Proof.
  split.
  - unfold labels. rewrite !elem_of_cons, elem_of_nil. intros H.
    repeat (destruct H as [H|H]; [discriminate H|]). exact H.
  - refine (classification_passes_unvalidated Doubles.decode
              (Doubles.answering (Some Doubles.text_spam))
              Doubles.the_client Doubles.the_message Doubles.text_spam
              {[ "classification" := PyStr "Spam" ]} "Spam" _ _ _ _ _ _); reflexivity.
Defined.

(** C6 as stated fails on [{"classification": "Spam", "summary": null}]:
    classification is text, yet nothing reaches the caller but the
    generic error. *)
Lemma classification_lost_with_invalid_sibling :
  Doubles.decode Doubles.text_spam_summary_null
  = Some (PyDict (<[ "classification" := PyStr "Spam" ]> {[ "summary" := PyNone ]}))
  ∧ (<[ "classification" := PyStr "Spam" ]> {[ "summary" := PyNone ]} : gmap string pyval)
      !! "classification" = Some (PyStr "Spam")
  ∧ response (analyze_message Doubles.decode
                (Doubles.answering (Some Doubles.text_spam_summary_null))
                Doubles.the_client Doubles.the_message)
    = HTTPException 500 "Error analyzing message"
  ∧ ¬ (∃ body,
          response (analyze_message Doubles.decode
                      (Doubles.answering (Some Doubles.text_spam_summary_null))
                      Doubles.the_client Doubles.the_message) = Success body
          ∧ classification body = "Spam").
Proof.
  repeat split; try reflexivity.
  intros (body & Hbody & _). vm_compute in Hbody. discriminate.
Qed.

(** C8, on an environment without the key and on one that holds it. *)
Lemma startup_requires_nonempty_key_witness :
  run Doubles.decode Doubles.dumps_flat (Doubles.answering (Some Doubles.text_rewritten))
    ∅ [PostAnalyzeMessage Doubles.the_message]
  = ([], Raise (RuntimeError "OPENAI_API_KEY is not set in .env"))
  ∧ ∃ tr,
      run Doubles.decode Doubles.dumps_flat (Doubles.answering (Some Doubles.text_rewritten))
        {[ "OPENAI_API_KEY" := "sk-test" ]}
        [PostRewriteReply (Doubles.the_rewrite "short");
         PostRewriteReply (Doubles.the_rewrite "friendly")]
      = (tr,
         Return (dispatch Doubles.decode Doubles.dumps_flat
                   (Doubles.answering (Some Doubles.text_rewritten))
                   {| client := {| OpenAI.api_key := "sk-test" |} |}
                 <$> [PostRewriteReply (Doubles.the_rewrite "short");
                      PostRewriteReply (Doubles.the_rewrite "friendly")]))
      ∧ List.filter is_ClientConstructed tr = [ClientConstructed "sk-test"].
Proof.
  split.
  - apply (proj1 (startup_requires_nonempty_key Doubles.decode Doubles.dumps_flat
                    (Doubles.answering (Some Doubles.text_rewritten)))).
    left. reflexivity.
  - apply (proj2 (startup_requires_nonempty_key Doubles.decode Doubles.dumps_flat
                    (Doubles.answering (Some Doubles.text_rewritten)))).
    + reflexivity.
    + discriminate.
Defined.

(** C8 as stated fails when the key is present but empty: start-up does
    not proceed. *)
Lemma empty_key_refuses_start :
  ({[ "OPENAI_API_KEY" := "" ]} : gmap string string) !! "OPENAI_API_KEY" = Some ""
  ∧ module_init {[ "OPENAI_API_KEY" := "" ]}
    = ([], Raise (RuntimeError "OPENAI_API_KEY is not set in .env"))
  ∧ run Doubles.decode Doubles.dumps_flat (Doubles.answering (Some Doubles.text_rewritten))
      {[ "OPENAI_API_KEY" := "" ]} [PostAnalyzeMessage Doubles.the_message]
    = ([], Raise (RuntimeError "OPENAI_API_KEY is not set in .env")).
Proof. repeat split. Qed.

(** C9, on [{"tasks": ["call Bob", 5]}] and on [{"rewritten_reply": 5}]. *)
Lemma invalid_fields_give_generic_error_witness :
  response (analyze_message Doubles.decode (Doubles.answering (Some Doubles.text_tasks_mixed))
              Doubles.the_client Doubles.the_message)
  = HTTPException 500 "Error analyzing message"
  ∧ response (rewrite_reply Doubles.decode Doubles.dumps_flat
                (Doubles.answering (Some Doubles.text_rewritten_number))
                Doubles.the_client (Doubles.the_rewrite "short"))
    = HTTPException 500 "Error rewriting reply".
Proof.
  split.
  - rewrite (proj1 (invalid_fields_give_generic_error Doubles.decode Doubles.dumps_flat
                      (Doubles.answering (Some Doubles.text_tasks_mixed)))
               Doubles.the_client Doubles.the_message Doubles.text_tasks_mixed
               {[ "tasks" := PyList [PyStr "call Bob"; PyInt 5] ]} eq_refl eq_refl).
    + reflexivity.
    + right; right; right. exists [PyStr "call Bob"; PyInt 5], (PyInt 5).
      repeat split. apply list_elem_of_further, list_elem_of_here.
  - rewrite (proj2 (invalid_fields_give_generic_error Doubles.decode Doubles.dumps_flat
                      (Doubles.answering (Some Doubles.text_rewritten_number)))
               Doubles.the_client (Doubles.the_rewrite "short") Doubles.text_rewritten_number
               {[ "rewritten_reply" := PyInt 5 ]} (PyInt 5) eq_refl eq_refl eq_refl eq_refl).
    reflexivity.
Defined.

(** C10, on two requests that differ in style only, one of them outside
    the three styles. *)
Lemma rewrite_normalization_ignores_style_witness :
  ("pirate" ∉ styles)
  ∧ response (rewrite_reply Doubles.decode Doubles.dumps_flat
                (Doubles.answering (Some Doubles.text_rewritten))
                Doubles.the_client (Doubles.the_rewrite "short"))
    = response (rewrite_reply Doubles.decode Doubles.dumps_flat
                  (Doubles.answering (Some Doubles.text_rewritten))
                  Doubles.the_client (Doubles.the_rewrite "pirate")).
Proof.
  split.
  - unfold styles. rewrite !elem_of_cons, elem_of_nil. intros H.
    repeat (destruct H as [H|H]; [discriminate H|]). exact H.
  - apply (rewrite_normalization_ignores_style Doubles.decode Doubles.dumps_flat
             (Doubles.answering (Some Doubles.text_rewritten))
             Doubles.the_client Doubles.the_client
             (Doubles.the_rewrite "short") (Doubles.the_rewrite "pirate")
             Doubles.text_rewritten); reflexivity.
Defined.

(** ** The further properties on the sample data *)


(** X2, on two requests that differ in style only. *)
Lemma rewrite_reply_payload_keeps_request_witness :
  rewrite_reply_payload (Doubles.the_rewrite "short")
  ≠ rewrite_reply_payload (Doubles.the_rewrite "pirate").
Proof.
  apply (rewrite_reply_payload_keeps_request (Doubles.the_rewrite "short")
           (Doubles.the_rewrite "pirate")).
  discriminate.
Defined.

(** X3, on a completion without choices and on a choice without text. *)
Lemma empty_completion_gives_generic_error_witness :
  analyze_message Doubles.decode (Samples.answering_all []) Doubles.the_client
    Doubles.the_message
  = {| trace := [CompletionRequested Doubles.the_client
                   (analyze_message_call Doubles.the_message);
                 Printed "Error in /analyze_message:" IndexError];
       response := HTTPException 500 "Error analyzing message" |}
  ∧ rewrite_reply Doubles.decode Doubles.dumps_flat (Doubles.answering None)
      Doubles.the_client (Doubles.the_rewrite "short")
    = {| trace := [CompletionRequested Doubles.the_client
                     (rewrite_reply_call Doubles.dumps_flat (Doubles.the_rewrite "short"));
                   Printed "Error in /rewrite_reply:" TypeError];
         response := HTTPException 500 "Error rewriting reply" |}.
Proof.
  split.
  - apply (proj1 (proj1 (empty_completion_gives_generic_error Doubles.decode
                           Doubles.dumps_flat (Samples.answering_all []))
                    Doubles.the_client Doubles.the_message
                    {| OpenAI.choices := [] |} eq_refl)).
    reflexivity.
  - apply (proj2 (proj2 (empty_completion_gives_generic_error Doubles.decode
                           Doubles.dumps_flat (Doubles.answering None))
                    Doubles.the_client (Doubles.the_rewrite "short")
                    {| OpenAI.choices :=
                         [ {| OpenAI.message := {| OpenAI.content := None |} |} ] |}
                    eq_refl)
             {| OpenAI.message := {| OpenAI.content := None |} |});
      reflexivity.
Defined.

(** X4, on two requests served by a service that returns two choices. *)
Lemma only_first_choice_is_read_witness :
  response (analyze_message Doubles.decode
              (Samples.answering_all [Some Doubles.text_spam; Some Doubles.text_complete])
              Doubles.the_client Doubles.the_message)
  = response (analyze_message Doubles.decode
                (Samples.answering_all [Some Doubles.text_spam; Some Doubles.text_complete])
                Samples.other_client Samples.other_message)
  ∧ response (rewrite_reply Doubles.decode Doubles.dumps_flat
                (Samples.answering_all [Some Doubles.text_rewritten; None])
                Doubles.the_client (Doubles.the_rewrite "short"))
    = response (rewrite_reply Doubles.decode Doubles.dumps_flat
                  (Samples.answering_all [Some Doubles.text_rewritten; None])
                  Samples.other_client (Doubles.the_rewrite "friendly")).
Proof.
  split.
  - eapply (proj1 (only_first_choice_is_read Doubles.decode Doubles.dumps_flat
                     (Samples.answering_all
                        [Some Doubles.text_spam; Some Doubles.text_complete])));
      reflexivity.
  - eapply (proj2 (only_first_choice_is_read Doubles.decode Doubles.dumps_flat
                     (Samples.answering_all [Some Doubles.text_rewritten; None])));
      reflexivity.
Defined.

(** X5, on [{"classification": "Spam"}] with and without a priority, and
    on scenario B with and without a tone. *)
Lemma unread_fields_are_ignored_witness :
  response (analyze_message Samples.decode
              (Samples.answering_each (Some Doubles.text_spam)
                 (Some Samples.text_spam_priority))
              Doubles.the_client Doubles.the_message)
  = response (analyze_message Samples.decode
                (Samples.answering_each (Some Doubles.text_spam)
                   (Some Samples.text_spam_priority))
                Samples.other_client Doubles.the_message)
  ∧ response (rewrite_reply Samples.decode Doubles.dumps_flat
                (Samples.answering_each (Some Doubles.text_rewritten)
                   (Some Samples.text_rewritten_tone))
                Doubles.the_client (Doubles.the_rewrite "short"))
    = response (rewrite_reply Samples.decode Doubles.dumps_flat
                  (Samples.answering_each (Some Doubles.text_rewritten)
                     (Some Samples.text_rewritten_tone))
                  Samples.other_client (Doubles.the_rewrite "short")).
Proof.
  split.
  - apply (proj1 (unread_fields_are_ignored Samples.decode Doubles.dumps_flat
                    (Samples.answering_each (Some Doubles.text_spam)
                       (Some Samples.text_spam_priority)))
             Doubles.the_client Samples.other_client Doubles.the_message Doubles.the_message
             {[ "classification" := PyStr "Spam" ]} "priority" (PyInt 1)).
    + unfold analysis_keys. rewrite !elem_of_cons, elem_of_nil. intros H.
      repeat (destruct H as [H|H]; [discriminate H|]). exact H.
    + exists Doubles.text_spam. split; reflexivity.
    + exists Samples.text_spam_priority. split; reflexivity.
  - apply (proj2 (unread_fields_are_ignored Samples.decode Doubles.dumps_flat
                    (Samples.answering_each (Some Doubles.text_rewritten)
                       (Some Samples.text_rewritten_tone)))
             Doubles.the_client Samples.other_client
             (Doubles.the_rewrite "short") (Doubles.the_rewrite "short")
             {[ "rewritten_reply" := PyStr "Got it, will do." ]} "tone" (PyStr "short")).
    + discriminate.
    + reflexivity.
    + exists Doubles.text_rewritten. split; reflexivity.
    + exists Samples.text_rewritten_tone. split; reflexivity.
Defined.

(** X6, on [{}] against [{"classification": "Informational"}], and on
    [{}] against the base reply sent back. *)
Lemma omitted_field_is_its_default_witness :
  response (analyze_message Samples.decode
              (Samples.answering_each (Some Doubles.text_empty)
                 (Some Samples.text_informational))
              Doubles.the_client Doubles.the_message)
  = response (analyze_message Samples.decode
                (Samples.answering_each (Some Doubles.text_empty)
                   (Some Samples.text_informational))
                Samples.other_client Doubles.the_message)
  ∧ response (rewrite_reply Samples.decode Doubles.dumps_flat
                (Samples.answering_each (Some Doubles.text_empty)
                   (Some Samples.text_rewritten_base))
                Doubles.the_client (Doubles.the_rewrite "short"))
    = response (rewrite_reply Samples.decode Doubles.dumps_flat
                  (Samples.answering_each (Some Doubles.text_empty)
                     (Some Samples.text_rewritten_base))
                  Samples.other_client (Doubles.the_rewrite "short")).
Proof.
  split.
  - apply (proj1 (omitted_field_is_its_default Samples.decode Doubles.dumps_flat
                    (Samples.answering_each (Some Doubles.text_empty)
                       (Some Samples.text_informational)))
             Doubles.the_client Samples.other_client Doubles.the_message Doubles.the_message
             ∅ "classification" (PyStr "Informational")).
    + apply list_elem_of_here.
    + reflexivity.
    + exists Doubles.text_empty. split; reflexivity.
    + exists Samples.text_informational. split; reflexivity.
  - apply (proj2 (omitted_field_is_its_default Samples.decode Doubles.dumps_flat
                    (Samples.answering_each (Some Doubles.text_empty)
                       (Some Samples.text_rewritten_base)))
             Doubles.the_client Samples.other_client
             (Doubles.the_rewrite "short") (Doubles.the_rewrite "short") ∅).
    + reflexivity.
    + exists Doubles.text_empty. split; reflexivity.
    + exists Samples.text_rewritten_base. split; reflexivity.
Defined.

(** X7, on [{"tasks": "call Bob"}] against [{}]. *)
Lemma non_list_tasks_is_omitted_tasks_witness :
  response (analyze_message Samples.decode
              (Samples.answering_each (Some Doubles.text_tasks_string)
                 (Some Doubles.text_empty))
              Doubles.the_client Doubles.the_message)
  = response (analyze_message Samples.decode
                (Samples.answering_each (Some Doubles.text_tasks_string)
                   (Some Doubles.text_empty))
                Samples.other_client Doubles.the_message).
Proof.
  apply (non_list_tasks_is_omitted_tasks Samples.decode
           (Samples.answering_each (Some Doubles.text_tasks_string)
              (Some Doubles.text_empty))
           Doubles.the_client Samples.other_client Doubles.the_message Doubles.the_message
           {[ "tasks" := PyStr "call Bob" ]} (PyStr "call Bob")).
  - reflexivity.
  - reflexivity.
  - exists Doubles.text_tasks_string. split; reflexivity.
  - exists Doubles.text_empty. split; reflexivity.
Defined.

(** X8, on [{"classification": "Spam"}] against
    [{"classification": "Request"}]. *)
Lemma classification_text_never_decides_witness :
  ∃ s t r,
    response (analyze_message Samples.decode
                (Samples.answering_each (Some Doubles.text_spam)
                   (Some Samples.text_request))
                Doubles.the_client Doubles.the_message)
    = Success {| classification := "Spam"; summary := s; tasks := t; suggested_reply := r |}
    ∧ response (analyze_message Samples.decode
                  (Samples.answering_each (Some Doubles.text_spam)
                     (Some Samples.text_request))
                  Samples.other_client Doubles.the_message)
      = Success {| classification := "Request"; summary := s; tasks := t;
                   suggested_reply := r |}.
Proof.
  destruct (classification_text_never_decides Samples.decode
              (Samples.answering_each (Some Doubles.text_spam) (Some Samples.text_request))
              Doubles.the_client Samples.other_client Doubles.the_message Doubles.the_message
              ∅ "Spam" "Request") as [[Hfail _]|Hok].
  - exists Doubles.text_spam. split; reflexivity.
  - exists Samples.text_request. split; reflexivity.
  - vm_compute in Hfail. discriminate Hfail.
  - exact Hok.
Defined.

(** X9, on the success for [{"classification": "Spam"}]. *)
Lemma success_comes_from_upstream_object_witness :
  ∃ d,
    analysis_answered Doubles.decode (Doubles.answering (Some Doubles.text_spam))
      Doubles.the_client Doubles.the_message (PyDict d)
    ∧ analysis_acceptable d = true
    ∧ {| classification := "Spam"; summary := ""; tasks := []; suggested_reply := "" |}
      = analysis_defaulted d.
Proof.
  apply (proj1 (success_comes_from_upstream_object Doubles.decode Doubles.dumps_flat
                  (Doubles.answering (Some Doubles.text_spam)))
           Doubles.the_client Doubles.the_message).
  reflexivity.
Defined.

(** X10, on the complete sample answer. *)
Lemma success_reflects_upstream_witness :
  [PyStr "Review the API docs"]
  = PyStr <$> tasks {| classification := "Request";
                       summary := "Review the API docs.";
                       tasks := ["Review the API docs"];
                       suggested_reply := "Will do." |}.
Proof.
  refine (proj1 (proj2 (proj2
            (proj1 (success_reflects_upstream Doubles.decode Doubles.dumps_flat
                      (Doubles.answering (Some Doubles.text_complete)))
               Doubles.the_client Doubles.the_message
               (<[ "classification" := PyStr "Request" ]>
                  (<[ "summary" := PyStr "Review the API docs." ]>
                     (<[ "tasks" := PyList [PyStr "Review the API docs"] ]>
                        {[ "suggested_reply" := PyStr "Will do." ]})))
               _ _ _))) [PyStr "Review the API docs"] _).
  - exists Doubles.text_complete. split; reflexivity.
  - reflexivity.
  - reflexivity.
Defined.

(** X11, on a process that serves one request that succeeds and one
    that fails. *)
Lemma one_completion_request_per_served_request_witness :
  ∃ tr replies,
    run Samples.decode Doubles.dumps_flat
      (Doubles.answering (Some Doubles.text_rewritten_number))
      {[ "OPENAI_API_KEY" := "sk-test" ]}
      [PostAnalyzeMessage Doubles.the_message;
       PostRewriteReply (Doubles.the_rewrite "short")]
    = (tr, Return replies)
    ∧ length replies = 2
    ∧ length (List.filter is_CompletionRequested tr) = 2
    ∧ length (List.filter is_Printed tr) = length (List.filter reply_failed replies)
    ∧ (∀ ev c, ev ∈ tr → event_client ev = Some c → c = {| OpenAI.api_key := "sk-test" |}).
Proof.
  apply (one_completion_request_per_served_request Samples.decode Doubles.dumps_flat
           (Doubles.answering (Some Doubles.text_rewritten_number))
           {[ "OPENAI_API_KEY" := "sk-test" ]}
           [PostAnalyzeMessage Doubles.the_message;
            PostRewriteReply (Doubles.the_rewrite "short")] "sk-test").
  - reflexivity.
  - discriminate.
Defined.
